(** * MELCloud integration: the device wrapper, the entity adapters and the
      fleet bootstrap of [custom_components/melcloudwitherv]

    A shallow embedding of [__init__.py], [switch.py] and [select.py].
    Coroutines are run to completion one after the other; an exception is a
    value of [outcome]; mutable objects are passed and returned explicitly.
    Logging calls have no effect on any state read here and are left out. *)

From Stdlib Require Import ZArith String List Lia.
From stdpp Require Import base option gmap strings list fin_maps pretty.

Local Open Scope string_scope.

(** ** Python values and exceptions *)

(** The values the adapters put in a [dict[str, Any]] of properties. *)
Inductive PyVal : Type :=
| PyBool (b : bool)
| PyStr (s : string).

Abbreviation Properties := (gmap string PyVal).

(** The exception classes the [except] clauses of the package tell apart. A
    value stands for an instance of the class or of one of its subclasses;
    [ClientResponseError] carries its HTTP [status] (which aiohttp also
    exposes as [code]). [OtherError] is any class none of the clauses names. *)
Inductive Exception : Type :=
| ClientConnectionError
| ClientResponseError (status : Z)
| AttributeError
| TimeoutError
| OtherError (cls : string).

(** What awaiting a call yields: a value, or a raised exception. *)
Inductive outcome (E A : Type) : Type :=
| Returns (a : A)
| Raises (e : E).
Arguments Returns {E A} a.
Arguments Raises {E A} e.

(** ** Instants and durations *)

(** Instants and [timedelta]s are counted in microseconds, the resolution of
    Python's [datetime]. *)
Definition timedelta_seconds (s : Z) : Z := (s * 1000000)%Z.
Definition timedelta_minutes (m : Z) : Z := timedelta_seconds (m * 60).

Definition MIN_TIME_BETWEEN_UPDATES : Z := timedelta_minutes 5.

(** ** The remote device accessor (pymelcloud's [Device]) *)

(** One entry of [Device.units]; [None] is Python's [None]. *)
Record UnitInfo : Type := { model : option string }.

(** The accessor is duck-typed: the package only awaits [update()] and
    [set(properties)] and reads attributes. Both calls may change the
    accessor and may raise. *)
Class Accessor (D : Type) : Type := {
  dev_name : D -> string;
  dev_mac : D -> string;
  dev_serial : D -> string;
  dev_units : D -> option (list UnitInfo);
  dev_update : D -> outcome Exception unit * D;
  dev_set : Properties -> D -> outcome Exception unit * D
}.

(** [homeassistant.helpers.device_registry.DeviceInfo], with the keys
    [device_info] fills in. *)
Module DeviceInfo.
Record t : Type := {
  connections : gset (string * string);
  identifiers : gset (string * string);
  manufacturer : string;
  model : option string;
  name : string
}.
End DeviceInfo.

(** Modelled from the spec: [homeassistant.util.Throttle], the decorator on
    [MelCloudDevice.async_update], is not part of the package. The spec
    describes it as a per-wrapper rate limiter holding the time of the last
    invocation and a minimum interval, checked and updated in one step; a
    call made within the interval does no work and returns at once.
    [last] is [None] until the first call. *)
Definition Throttle_admits (min_time now : Z) (last : option Z) : bool :=
  match last with
  | None => true
  | Some t => bool_decide (min_time < now - t)%Z
  end.

Section Wrapper.
Context {D : Type} `{!Accessor D}.

(** ** [class MelCloudDevice] *)

(** [_throttle] is the limiter state the decorator keeps on the instance. *)
Record MelCloudDevice : Type := {
  device : D;
  name : string;
  _available : bool;
  _throttle : option Z
}.

(** [MelCloudDevice.__init__] *)
Definition MelCloudDevice_init (dev : D) : MelCloudDevice :=
  {| device := dev; name := dev_name dev; _available := true;
     _throttle := None |}.

Definition set_device (self : MelCloudDevice) (dev : D) : MelCloudDevice :=
  {| device := dev; name := name self; _available := _available self;
     _throttle := _throttle self |}.

Definition set_available (self : MelCloudDevice) (b : bool) : MelCloudDevice :=
  {| device := device self; name := name self; _available := b;
     _throttle := _throttle self |}.

Definition set_throttle (self : MelCloudDevice) (t : option Z) : MelCloudDevice :=
  {| device := device self; name := name self; _available := _available self;
     _throttle := t |}.

(** The function under the decorator: the body of [async_update]. *)
Definition async_update_wrapped (self : MelCloudDevice)
  : outcome Exception unit * MelCloudDevice :=
  let '(r, dev) := dev_update (device self) in
  let self := set_device self dev in
  match r with
  | Returns _ => (Returns tt, set_available self true)
  | Raises ClientConnectionError => (Returns tt, set_available self false)
  | Raises (ClientResponseError status) =>
      if (status =? 401)%Z then (Raises (ClientResponseError status), self)
      else (Returns tt, set_available self true)
  | Raises AttributeError => (Returns tt, set_available self false)
  | Raises e => (Raises e, self)
  end.

(** [MelCloudDevice.async_update], called at instant [now]. *)
Definition async_update (now : Z) (self : MelCloudDevice)
  : outcome Exception unit * MelCloudDevice :=
  if Throttle_admits MIN_TIME_BETWEEN_UPDATES now (_throttle self)
  then async_update_wrapped (set_throttle self (Some now))
  else (Returns tt, self).

(** [MelCloudDevice.async_set] *)
Definition async_set (properties : Properties) (self : MelCloudDevice)
  : outcome Exception unit * MelCloudDevice :=
  let '(r, dev) := dev_set properties (device self) in
  let self := set_device self dev in
  match r with
  | Returns _ => (Returns tt, set_available self true)
  | Raises ClientConnectionError => (Returns tt, set_available self false)
  | Raises e => (Raises e, self)
  end.

(** [MelCloudDevice.available] *)
Definition available (self : MelCloudDevice) : bool := _available self.

(** Python truthiness of a unit's ["model"] entry, and the entry as the
    [str] that [join] receives. *)
Definition truthy (v : option string) : bool :=
  match v with
  | Some s => negb (String.eqb s "")
  | None => false
  end.

Definition as_str (v : option string) : string := default "" v.

(** [DOMAIN] comes from [const.py] and [CONNECTION_NETWORK_MAC] from the
    hub; neither value matters below. *)
Variable DOMAIN : string.
Variable CONNECTION_NETWORK_MAC : string.

(** [MelCloudDevice.device_info]; [", ".join] is [String.concat ", "]. *)
Definition device_info (self : MelCloudDevice) : DeviceInfo.t :=
  let model :=
    match dev_units (device self) with
    | Some unit_infos =>
        Some (String.concat ", "
                (List.map (fun x => as_str (model x))
                   (List.filter (fun x => truthy (model x)) unit_infos)))
    | None => None
    end in
  {| DeviceInfo.connections :=
       {[ (CONNECTION_NETWORK_MAC, dev_mac (device self)) ]};
     DeviceInfo.identifiers :=
       {[ (DOMAIN, dev_mac (device self) +:+ "-" +:+ dev_serial (device self)) ]};
     DeviceInfo.manufacturer := "Mitsubishi Electric";
     DeviceInfo.model := model;
     DeviceInfo.name := name self |}.

(** ** The entity adapters of [switch.py] and [select.py]

    An adapter is built as [PowerSwitch(mel_device, mel_device.device)]: its
    [_api] is the wrapper and its [_device] is the very accessor object the
    wrapper holds. A method of the adapter therefore acts on the wrapper's
    [device]; the adapter has no mutable field of its own, so its methods
    are functions of the wrapper it was built from. *)

(** [PowerSwitch.async_turn_on] *)
Definition PowerSwitch_async_turn_on (_api : MelCloudDevice)
  : outcome Exception unit * MelCloudDevice :=
  let set_dict : Properties := {[ "power" := PyBool true ]} in
  let '(r, dev) := dev_set set_dict (device _api) in
  (r, set_device _api dev).

(** [PowerSwitch.async_turn_off] *)
Definition PowerSwitch_async_turn_off (_api : MelCloudDevice)
  : outcome Exception unit * MelCloudDevice :=
  let set_dict : Properties := {[ "power" := PyBool false ]} in
  let '(r, dev) := dev_set set_dict (device _api) in
  (r, set_device _api dev).

(** [ErvFanSpeedSelect.async_select_option] *)
Definition ErvFanSpeedSelect_async_select_option (option : string)
  (_api : MelCloudDevice) : outcome Exception unit * MelCloudDevice :=
  let set_dict : Properties := {[ "fan_speed" := PyStr option ]} in
  let '(r, dev) := dev_set set_dict (device _api) in
  (r, set_device _api dev).

(** [ErvVentilationModeSelect.async_select_option] *)
Definition ErvVentilationModeSelect_async_select_option (option : string)
  (_api : MelCloudDevice) : outcome Exception unit * MelCloudDevice :=
  let set_dict : Properties := {[ "ventilation_mode" := PyStr option ]} in
  let '(r, dev) := dev_set set_dict (device _api) in
  (r, set_device _api dev).

(** ** The fleet bootstrap *)

(** One run of pymelcloud's [get_devices]: after [elapsed] microseconds it
    returns the inventory by device class, or raises. *)
Record Retrieval : Type := {
  elapsed : Z;
  answer : outcome Exception (gmap string (list D))
}.

(** [async with asyncio.timeout(delay)] around a body that needs [elapsed]:
    a body still running at the deadline is cancelled and [TimeoutError] is
    raised in its place. *)
Definition asyncio_timeout {A : Type} (delay elapsed : Z)
  (body : outcome Exception A) : outcome Exception A :=
  if bool_decide (timedelta_seconds delay < elapsed)%Z
  then Raises TimeoutError
  else body.

(** [mel_devices_setup]; the loop over [all_devices.items()] is the fold. *)
Definition mel_devices_setup (get_devices : Retrieval)
  : outcome Exception (gmap string (list MelCloudDevice)) :=
  match asyncio_timeout 10 (elapsed get_devices) (answer get_devices) with
  | Raises ex => Raises ex
  | Returns all_devices =>
      Returns
        (map_fold
           (fun device_type devices wrapped_devices =>
              <[device_type := List.map MelCloudDevice_init devices]>
                wrapped_devices)
           ∅ all_devices)
  end.

(** What [async_setup_entry] raises: one of the hub's two conditions, each
    with the exception it was raised [from], or an exception no clause
    caught. *)
Inductive SetupError : Type :=
| ConfigEntryAuthFailed (ex : Exception)
| ConfigEntryNotReady (ex : Exception)
| Uncaught (ex : Exception).

(** [async_setup_entry], from the [try] on. [hass_data] is [hass.data]
    restricted to fleets: domain, then entry id, then device class. The
    package migration before the [try] and the forwarding to the platforms
    after the store belong to the hub and are not modelled. *)
Definition async_setup_entry (entry_id : string) (get_devices : Retrieval)
  (hass_data : gmap string (gmap string (gmap string (list MelCloudDevice))))
  : outcome SetupError bool
    * gmap string (gmap string (gmap string (list MelCloudDevice))) :=
  match mel_devices_setup get_devices with
  | Raises (ClientResponseError code) =>
      if (code =? 401)%Z
      then (Raises (ConfigEntryAuthFailed (ClientResponseError code)), hass_data)
      else (Raises (ConfigEntryNotReady (ClientResponseError code)), hass_data)
  | Raises TimeoutError => (Raises (ConfigEntryNotReady TimeoutError), hass_data)
  | Raises ClientConnectionError =>
      (Raises (ConfigEntryNotReady ClientConnectionError), hass_data)
  | Raises ex => (Raises (Uncaught ex), hass_data)
  | Returns mel_devices =>
      let entries := default ∅ (hass_data !! DOMAIN) in
      (Returns true, <[DOMAIN := <[entry_id := mel_devices]> entries]> hass_data)
  end.

End Wrapper.
Arguments MelCloudDevice D : clear implicits.
Arguments Retrieval D : clear implicits.

(** ** The model string in the words of the specification

    The comma-space join of the non-empty model strings of the units, in
    order: a unit without a model string is passed over, and [", "] stands
    between a model string and what follows it when something follows. *)
Fixpoint joined_models (units : list UnitInfo) : string :=
  match units with
  | [] => ""
  | u :: rest =>
      match model u with
      | Some (String c m) =>
          match joined_models rest with
          | "" => String c m
          | following => String c m +:+ ", " +:+ following
          end
      | _ => joined_models rest
      end
  end.

(** ** Accessors used to observe the wrapper *)

(** An accessor that counts the [update()] and [set()] calls it receives
    and otherwise behaves as the accessor inside. *)
Record Counted (D : Type) : Type := {
  inner : D;
  update_calls : nat;
  set_calls : nat
}.
Arguments inner {D} c.
Arguments update_calls {D} c.
Arguments set_calls {D} c.

#[global] Instance Counted_Accessor {D : Type} `{!Accessor D}
  : Accessor (Counted D) := {|
  dev_name c := dev_name (inner c);
  dev_mac c := dev_mac (inner c);
  dev_serial c := dev_serial (inner c);
  dev_units c := dev_units (inner c);
  dev_update c :=
    let '(r, d) := dev_update (inner c) in
    (r, {| inner := d; update_calls := S (update_calls c);
           set_calls := set_calls c |});
  dev_set properties c :=
    let '(r, d) := dev_set properties (inner c) in
    (r, {| inner := d; update_calls := update_calls c;
           set_calls := S (set_calls c) |})
|}.

(** A scripted accessor: each [update()] and each [set()] takes the next
    entry of its script, [None] to succeed and [Some ex] to raise [ex]; a
    call after the end of the script succeeds. [set_log] keeps the
    properties of every [set()], latest first. *)
Record Scripted : Type := {
  s_name : string;
  s_mac : string;
  s_serial : string;
  s_units : option (list UnitInfo);
  update_script : list (option Exception);
  set_script : list (option Exception);
  set_log : list Properties
}.

Definition scripted_result (o : option (option Exception))
  : outcome Exception unit :=
  match o with
  | Some (Some ex) => Raises ex
  | _ => Returns tt
  end.

#[global] Instance Scripted_Accessor : Accessor Scripted := {|
  dev_name := s_name;
  dev_mac := s_mac;
  dev_serial := s_serial;
  dev_units := s_units;
  dev_update d :=
    (scripted_result (head (update_script d)),
     {| s_name := s_name d; s_mac := s_mac d; s_serial := s_serial d;
        s_units := s_units d; update_script := tail (update_script d);
        set_script := set_script d; set_log := set_log d |});
  dev_set properties d :=
    (scripted_result (head (set_script d)),
     {| s_name := s_name d; s_mac := s_mac d; s_serial := s_serial d;
        s_units := s_units d; update_script := update_script d;
        set_script := tail (set_script d);
        set_log := properties :: set_log d |})
|}.

Definition scripted (units : option (list UnitInfo))
  (updates sets : list (option Exception)) : Scripted :=
  {| s_name := "Lossnay"; s_mac := "00:11:22:33:44:55"; s_serial := "1234";
     s_units := units; update_script := updates; set_script := sets;
     set_log := [] |}.

(** ** The rest of the package *)

(** Python's [KeyError], raised by a subscript or a [pop] on a missing key;
    no [except] clause of the package names it. *)
Definition KeyError : Exception := OtherError "KeyError".

(** [pymelcloud.atw_device.Zone], with the attributes [zone_device_info]
    reads. *)
Module Zone.
Record t : Type := {
  zone_index : Z;
  name : string
}.
End Zone.

(** [DeviceInfo] with the keys [zone_device_info] fills in. *)
Module ZoneDeviceInfo.
Record t : Type := {
  identifiers : gset (string * string);
  manufacturer : string;
  model : option string;
  name : string;
  via_device : string * string
}.
End ZoneDeviceInfo.

Section Package.
Context {D : Type} `{!Accessor D}.
Variables DOMAIN CONNECTION_NETWORK_MAC : string.

(** [MelCloudDevice.zone_device_info]; the f-string renders the integer
    [zone.zone_index] in decimal, as [pretty] does. *)
Definition zone_device_info (self : MelCloudDevice D) (zone : Zone.t)
  : ZoneDeviceInfo.t :=
  let dev := device self in
  {| ZoneDeviceInfo.identifiers :=
       {[ (DOMAIN, dev_mac dev +:+ "-" +:+ dev_serial dev +:+ "-"
                   +:+ pretty (Zone.zone_index zone)) ]};
     ZoneDeviceInfo.manufacturer := "Mitsubishi Electric";
     ZoneDeviceInfo.model := Some "ATW zone device";
     ZoneDeviceInfo.name := name self +:+ " " +:+ Zone.name zone;
     ZoneDeviceInfo.via_device :=
       (DOMAIN, dev_mac dev +:+ "-" +:+ dev_serial dev) |}.

(** [async_unload_entry]. [async_unload_platforms] is what awaiting the
    hub's call of that name yields. The [pop] on the inner dictionary
    changes it in place, so [hass.data] sees the entry gone before the
    emptiness test. *)
Definition async_unload_entry (entry_id : string)
  (async_unload_platforms : outcome Exception bool)
  (hass_data : gmap string (gmap string (gmap string (list (MelCloudDevice D)))))
  : outcome Exception bool
    * gmap string (gmap string (gmap string (list (MelCloudDevice D)))) :=
  match async_unload_platforms with
  | Raises ex => (Raises ex, hass_data)
  | Returns unload_ok =>
      match hass_data !! DOMAIN with
      | None => (Raises KeyError, hass_data)
      | Some entries =>
          match entries !! entry_id with
          | None => (Raises KeyError, hass_data)
          | Some _ =>
              let entries := delete entry_id entries in
              let hass_data := <[DOMAIN := entries]> hass_data in
              if decide (entries = ∅)
              then (Returns unload_ok, delete DOMAIN hass_data)
              else (Returns unload_ok, hass_data)
          end
      end
  end.

(** *** The entities of [switch.py] and [select.py]

    The three entity classes have the same [__init__]: they keep the
    wrapper, the accessor and the wrapper's [device_info] read at that
    moment. *)
Record EntityFields : Type := {
  _api : MelCloudDevice D;
  _device : D;
  _attr_device_info : DeviceInfo.t
}.

Definition Entity_init (api : MelCloudDevice D) (device : D) : EntityFields :=
  {| _api := api; _device := device;
     _attr_device_info := device_info DOMAIN CONNECTION_NETWORK_MAC api |}.

Inductive Entity : Type :=
| PowerSwitch (self : EntityFields)
| ErvFanSpeedSelect (self : EntityFields)
| ErvVentilationModeSelect (self : EntityFields).

Definition fields (e : Entity) : EntityFields :=
  match e with
  | PowerSwitch self | ErvFanSpeedSelect self
  | ErvVentilationModeSelect self => self
  end.

(** The [name] property of each class. *)
Definition entity_name (e : Entity) : string :=
  match e with
  | PowerSwitch self => dev_name (_device self) +:+ " Power"
  | ErvFanSpeedSelect self => dev_name (_device self) +:+ " Fan Speed"
  | ErvVentilationModeSelect self =>
      dev_name (_device self) +:+ " Ventilation Mode"
  end.

(** The [unique_id] property of each class. *)
Definition unique_id (e : Entity) : string :=
  match e with
  | PowerSwitch self =>
      dev_serial (_device self) +:+ "-" +:+ dev_mac (_device self)
      +:+ "_power_switch"
  | ErvFanSpeedSelect self =>
      dev_serial (_device self) +:+ "-" +:+ dev_mac (_device self)
      +:+ "_fan_speed"
  | ErvVentilationModeSelect self =>
      dev_serial (_device self) +:+ "-" +:+ dev_mac (_device self)
      +:+ "_ventilation_mode"
  end.

(** The entity's accessor is its wrapper's, and its device info is its
    wrapper's. *)
Definition bound_to_its_wrapper (e : Entity) : Prop :=
  _device (fields e) = device (_api (fields e)) /\
  _attr_device_info (fields e)
  = device_info DOMAIN CONNECTION_NETWORK_MAC (_api (fields e)).

(** Two entities are of the same class. *)
Definition same_class (e1 e2 : Entity) : Prop :=
  match e1, e2 with
  | PowerSwitch _, PowerSwitch _
  | ErvFanSpeedSelect _, ErvFanSpeedSelect _
  | ErvVentilationModeSelect _, ErvVentilationModeSelect _ => True
  | _, _ => False
  end.

(** pymelcloud's names of the device classes. *)
Variables DEVICE_TYPE_ATA DEVICE_TYPE_ATW DEVICE_TYPE_ERV : string.

(** [d[k]] on a dictionary. *)
Definition subscript {A : Type} (d : gmap string A) (k : string)
  : outcome Exception A :=
  match d !! k with
  | Some v => Returns v
  | None => Raises KeyError
  end.

(** [hass.data[DOMAIN][entry.entry_id]], the first statement of both
    platform set-ups. *)
Definition entry_fleet (entry_id : string)
  (hass_data : gmap string (gmap string (gmap string (list (MelCloudDevice D)))))
  : outcome Exception (gmap string (list (MelCloudDevice D))) :=
  match subscript hass_data DOMAIN with
  | Raises ex => Raises ex
  | Returns entries => subscript entries entry_id
  end.

(** [async_setup_entry] of [switch.py]: the list it hands to
    [async_add_entities], or the exception that stops it before. *)
Definition switch_async_setup_entry (entry_id : string)
  (hass_data : gmap string (gmap string (gmap string (list (MelCloudDevice D)))))
  : outcome Exception (list Entity) :=
  match entry_fleet entry_id hass_data with
  | Raises ex => Raises ex
  | Returns mel_devices =>
      match subscript mel_devices DEVICE_TYPE_ERV with
      | Raises ex => Raises ex
      | Returns erv =>
          match subscript mel_devices DEVICE_TYPE_ATA with
          | Raises ex => Raises ex
          | Returns ata =>
              match subscript mel_devices DEVICE_TYPE_ATW with
              | Raises ex => Raises ex
              | Returns atw =>
                  let power_switch mel_device :=
                    PowerSwitch (Entity_init mel_device (device mel_device)) in
                  Returns (List.map power_switch erv
                           ++ List.map power_switch ata
                           ++ List.map power_switch atw)%list
              end
          end
      end
  end.

(** [async_setup_entry] of [select.py]. *)
Definition select_async_setup_entry (entry_id : string)
  (hass_data : gmap string (gmap string (gmap string (list (MelCloudDevice D)))))
  : outcome Exception (list Entity) :=
  match entry_fleet entry_id hass_data with
  | Raises ex => Raises ex
  | Returns mel_devices =>
      match subscript mel_devices DEVICE_TYPE_ERV with
      | Raises ex => Raises ex
      | Returns erv =>
          Returns
            (List.map
               (fun mel_device =>
                  ErvFanSpeedSelect (Entity_init mel_device (device mel_device)))
               erv
             ++ List.map
                  (fun mel_device =>
                     ErvVentilationModeSelect
                       (Entity_init mel_device (device mel_device)))
                  erv)%list
      end
  end.

(** *** Calls on one wrapper, one after the other *)

(** What the hub and the entities call on a wrapper: the refresh at an
    instant, the wrapper's write, and the four writes of the entities. *)
Inductive Call : Type :=
| Refresh (now : Z)
| Write (properties : Properties)
| TurnOn
| TurnOff
| SelectFanSpeed (option : string)
| SelectVentilationMode (option : string).

Definition call (c : Call) (w : MelCloudDevice D)
  : outcome Exception unit * MelCloudDevice D :=
  match c with
  | Refresh now => async_update now w
  | Write properties => async_set properties w
  | TurnOn => PowerSwitch_async_turn_on w
  | TurnOff => PowerSwitch_async_turn_off w
  | SelectFanSpeed option => ErvFanSpeedSelect_async_select_option option w
  | SelectVentilationMode option =>
      ErvVentilationModeSelect_async_select_option option w
  end.

(** The wrapper after a series of calls, whether they returned or raised. *)
Definition calls (cs : list Call) (w : MelCloudDevice D) : MelCloudDevice D :=
  fold_left (fun w c => snd (call c w)) cs w.

Definition is_refresh (c : Call) : bool :=
  match c with Refresh _ => true | _ => false end.

Definition is_wrapper_write (c : Call) : bool :=
  match c with Write _ => true | _ => false end.

(** Every refresh of [cs] starts no earlier than [lo] and no later than [hi]. *)
Definition refreshes_within (lo hi : Z) (cs : list Call) : Prop :=
  Forall (fun c => match c with
                   | Refresh now => (lo <= now <= hi)%Z
                   | _ => True
                   end) cs.

End Package.
Arguments EntityFields D : clear implicits.
Arguments Entity D : clear implicits.

(** *** The module purge of [_async_migrate_pymelcloud_package]

    The loop over [list(sys.modules)] that follows the two [pip] runs; the
    runs themselves and the imports after the loop act on the Python
    installation and are not modelled. [startswith] is [String.prefix]. *)
Definition is_pymelcloud_module (mod_name : string) : bool :=
  String.eqb mod_name "pymelcloud" || String.prefix "pymelcloud." mod_name.

Definition purge_pymelcloud_modules {M : Type} (sys_modules : gmap string M)
  : gmap string M :=
  map_fold
    (fun mod_name _ (live : gmap string M) =>
       if is_pymelcloud_module mod_name then delete mod_name live else live)
    sys_modules sys_modules.

(** The last character of a string, if it has one. *)
Fixpoint last_char (s : string) : option Ascii.ascii :=
  match s with
  | "" => None
  | String c "" => Some c
  | String _ rest => last_char rest
  end.

(** Wrappers over scripted accessors, for the closed instances below. *)
Definition sample_wrapper (updates sets : list (option Exception))
  : MelCloudDevice Scripted :=
  MelCloudDevice_init (scripted None updates sets).

Definition sample_unavailable (updates sets : list (option Exception))
  : MelCloudDevice Scripted :=
  set_available (sample_wrapper updates sets) false.

(** A wrapper whose first refresh, at instant 0, met a connection failure. *)
Definition unreachable_once : MelCloudDevice Scripted :=
  snd (async_update 0 (sample_wrapper [Some ClientConnectionError] [])).

(** An inventory of one air-to-air unit and one ventilator, retrieved in
    three seconds. *)
Definition sample_inventory : gmap string (list Scripted) :=
  {[ "ata" := [scripted None [] []]; "erv" := [scripted None [] []] ]}.

Definition sample_retrieval : Retrieval Scripted :=
  {| elapsed := timedelta_seconds 3; answer := Returns sample_inventory |}.

(** Units with the models "A", "" and "B". *)
Definition example_units : list UnitInfo :=
  [ {| model := Some "A" |}; {| model := Some "" |}; {| model := Some "B" |} ].

(** A counting wrapper whose first refresh, at instant 0, met a connection
    failure. *)
Definition counted_unreachable_once : MelCloudDevice (Counted Scripted) :=
  snd (async_update 0
         (MelCloudDevice_init
            {| inner := scripted None [Some ClientConnectionError] [];
               update_calls := 0; set_calls := 0 |})).

(** Refreshes and writes over five minutes. *)
Definition sample_calls : list Call :=
  [ Refresh 0; TurnOn; Refresh (timedelta_minutes 2);
    Write {[ "power" := PyBool false ]}; Refresh (timedelta_minutes 5) ].

(** Refreshes and entity writes within five minutes of instant 0. *)
Definition sample_entity_calls : list Call :=
  [ Refresh (timedelta_minutes 1); TurnOn; SelectFanSpeed "3";
    Refresh (timedelta_minutes 5) ].

(** An inventory with the three device classes, retrieved in three
    seconds. *)
Definition full_inventory : gmap string (list Scripted) :=
  {[ "ata" := [scripted None [] []]; "atw" := [];
     "erv" := [scripted (Some example_units) [] []] ]}.

Definition full_retrieval : Retrieval Scripted :=
  {| elapsed := timedelta_seconds 3; answer := Returns full_inventory |}.

(** [r] is what [set(properties)] on the accessor of [w] gives, with the
    wrapper's own fields as they were in [w]. *)
Definition straight_to_accessor {D : Type} `{!Accessor D}
  (properties : Properties) (w : MelCloudDevice D)
  (r : outcome Exception unit * MelCloudDevice D) : Prop :=
  fst r = fst (dev_set properties (device w)) /\
  device (snd r) = snd (dev_set properties (device w)) /\
  available (snd r) = available w /\
  _throttle (snd r) = _throttle w.

(** * Properties *)

Example MIN_TIME_BETWEEN_UPDATES_is_five_minutes :
  MIN_TIME_BETWEEN_UPDATES = (5 * 60 * 1000000)%Z.
Proof. reflexivity. Qed.

Section WrapperFacts.
Context {D : Type} `{!Accessor D}.
Implicit Types (w : MelCloudDevice D) (d : D) (now : Z).

(** ** The body of the refresh, case by case *)

Lemma set_throttle_device w t : device (set_throttle w t) = device w.
Proof. reflexivity. Qed.

Lemma set_throttle_available w t :
  available (set_throttle w t) = available w.
Proof. reflexivity. Qed.

Lemma async_update_admitted now w :
  Throttle_admits MIN_TIME_BETWEEN_UPDATES now (_throttle w) = true ->
  async_update now w = async_update_wrapped (set_throttle w (Some now)).
Proof. intros Hadm. unfold async_update. now rewrite Hadm. Qed.

Lemma async_update_suppressed now w :
  Throttle_admits MIN_TIME_BETWEEN_UPDATES now (_throttle w) = false ->
  async_update now w = (Returns tt, w).
Proof. intros Hadm. unfold async_update. now rewrite Hadm. Qed.

Lemma async_update_wrapped_returns w d :
  dev_update (device w) = (Returns tt, d) ->
  async_update_wrapped w = (Returns tt, set_available (set_device w d) true).
Proof. intros Hup. unfold async_update_wrapped. now rewrite Hup. Qed.

Lemma async_update_wrapped_connection w d :
  dev_update (device w) = (Raises ClientConnectionError, d) ->
  async_update_wrapped w = (Returns tt, set_available (set_device w d) false).
Proof. intros Hup. unfold async_update_wrapped. now rewrite Hup. Qed.

Lemma async_update_wrapped_attribute w d :
  dev_update (device w) = (Raises AttributeError, d) ->
  async_update_wrapped w = (Returns tt, set_available (set_device w d) false).
Proof. intros Hup. unfold async_update_wrapped. now rewrite Hup. Qed.

Lemma async_update_wrapped_401 w d :
  dev_update (device w) = (Raises (ClientResponseError 401), d) ->
  async_update_wrapped w = (Raises (ClientResponseError 401), set_device w d).
Proof. intros Hup. unfold async_update_wrapped. now rewrite Hup. Qed.

Lemma async_update_wrapped_rejected w d status :
  status <> 401%Z ->
  dev_update (device w) = (Raises (ClientResponseError status), d) ->
  async_update_wrapped w = (Returns tt, set_available (set_device w d) true).
Proof.
  intros Hst Hup. unfold async_update_wrapped. rewrite Hup.
  apply Z.eqb_neq in Hst. now rewrite Hst.
Qed.

Lemma async_update_wrapped_throttle w :
  _throttle (snd (async_update_wrapped w)) = _throttle w.
Proof.
  unfold async_update_wrapped.
  destruct (dev_update (device w)) as [[u|ex] d]; [reflexivity|].
  destruct ex as [|status| | |cls]; try reflexivity.
  now destruct (status =? 401)%Z.
Qed.

(** ** C2 to C5: what a refresh does with the outcome of [update()] *)

(** C2. When the throttle admits a refresh and the accessor's [update()]
    raises a rejection with status 401, that exception leaves the refresh
    and [available] keeps the value it had, whatever it was. *)
Theorem refresh_401_escapes_and_keeps_available now w d :
  Throttle_admits MIN_TIME_BETWEEN_UPDATES now (_throttle w) = true ->
  dev_update (device w) = (Raises (ClientResponseError 401), d) ->
  fst (async_update now w) = Raises (ClientResponseError 401) /\
  available (snd (async_update now w)) = available w.
Proof.
  intros Hadm Hup. rewrite (async_update_admitted _ _ Hadm).
  rewrite (async_update_wrapped_401 (set_throttle w (Some now)) d Hup).
  split; reflexivity.
Qed.

(** C3. When the accessor's [update()] raises a rejection with a status
    other than 401, the refresh returns normally and [available] is true. *)
Theorem refresh_other_rejection_stays_available now w d status :
  Throttle_admits MIN_TIME_BETWEEN_UPDATES now (_throttle w) = true ->
  status <> 401%Z ->
  dev_update (device w) = (Raises (ClientResponseError status), d) ->
  fst (async_update now w) = Returns tt /\
  available (snd (async_update now w)) = true.
Proof.
  intros Hadm Hst Hup. rewrite (async_update_admitted _ _ Hadm).
  rewrite (async_update_wrapped_rejected (set_throttle w (Some now)) d status Hst Hup).
  split; reflexivity.
Qed.

(** C4. When the accessor's [update()] raises a connection failure, the
    refresh returns normally and [available] is false; when [update()]
    returns, [available] is true. *)
Theorem refresh_connection_failure_and_success now w d :
  Throttle_admits MIN_TIME_BETWEEN_UPDATES now (_throttle w) = true ->
  (dev_update (device w) = (Raises ClientConnectionError, d) ->
   fst (async_update now w) = Returns tt /\
   available (snd (async_update now w)) = false) /\
  (dev_update (device w) = (Returns tt, d) ->
   fst (async_update now w) = Returns tt /\
   available (snd (async_update now w)) = true).
Proof.
  intros Hadm. rewrite (async_update_admitted _ _ Hadm). split; intros Hup.
  - rewrite (async_update_wrapped_connection (set_throttle w (Some now)) d Hup).
    split; reflexivity.
  - rewrite (async_update_wrapped_returns (set_throttle w (Some now)) d Hup).
    split; reflexivity.
Qed.

(** C5. When the accessor's [update()] raises [AttributeError] (an expected
    attribute is missing), the refresh returns normally and [available] is
    false. *)
Theorem refresh_attribute_error_marks_unavailable now w d :
  Throttle_admits MIN_TIME_BETWEEN_UPDATES now (_throttle w) = true ->
  dev_update (device w) = (Raises AttributeError, d) ->
  fst (async_update now w) = Returns tt /\
  available (snd (async_update now w)) = false.
Proof.
  intros Hadm Hup. rewrite (async_update_admitted _ _ Hadm).
  rewrite (async_update_wrapped_attribute (set_throttle w (Some now)) d Hup).
  split; reflexivity.
Qed.

(** ** C9 and C10: what a write does with the outcome of [set()] *)

(** C9. For every property mapping, when the accessor's [set()] raises a
    connection failure the write returns normally and [available] is
    false; when [set()] returns, [available] is true. *)
Theorem write_connection_failure_and_success (properties : Properties) w d :
  (dev_set properties (device w) = (Raises ClientConnectionError, d) ->
   fst (async_set properties w) = Returns tt /\
   available (snd (async_set properties w)) = false) /\
  (dev_set properties (device w) = (Returns tt, d) ->
   fst (async_set properties w) = Returns tt /\
   available (snd (async_set properties w)) = true).
Proof.
  unfold async_set. split; intros Hset; rewrite Hset; split; reflexivity.
Qed.

(** C10. For every property mapping, when the accessor's [set()] raises
    anything but a connection failure (a 401 rejection included), that
    exception leaves the write and [available] keeps the value it had. *)
Theorem write_other_failure_escapes (properties : Properties) w d ex :
  ex <> ClientConnectionError ->
  dev_set properties (device w) = (Raises ex, d) ->
  fst (async_set properties w) = Raises ex /\
  available (snd (async_set properties w)) = available w.
Proof.
  intros Hex Hset. unfold async_set. rewrite Hset.
  destruct ex; try congruence; split; reflexivity.
Qed.

End WrapperFacts.

(** ** C6: the throttle *)

Section ThrottleFacts.
Context {D : Type} `{!Accessor D}.
Implicit Types (w : MelCloudDevice (Counted D)) (t : Z).

Lemma async_update_wrapped_counts w :
  update_calls (device (snd (async_update_wrapped w)))
  = S (update_calls (device w)).
Proof.
  unfold async_update_wrapped. simpl.
  destruct (dev_update (inner (device w))) as [[u|ex] d]; [reflexivity|].
  destruct ex as [|status| | |cls]; try reflexivity.
  now destruct (status =? 401)%Z.
Qed.

Lemma admitted_refresh_counts t w :
  Throttle_admits MIN_TIME_BETWEEN_UPDATES t (_throttle w) = true ->
  update_calls (device (snd (async_update t w))) = S (update_calls (device w))
  /\ _throttle (snd (async_update t w)) = Some t.
Proof.
  intros Hadm. rewrite (async_update_admitted _ _ Hadm). split.
  - now rewrite async_update_wrapped_counts.
  - now rewrite async_update_wrapped_throttle.
Qed.

Lemma Throttle_closed_within t1 t2 :
  (t2 - t1 <= MIN_TIME_BETWEEN_UPDATES)%Z ->
  Throttle_admits MIN_TIME_BETWEEN_UPDATES t2 (Some t1) = false.
Proof. intros Hle. simpl. apply bool_decide_eq_false. lia. Qed.

(** C6. Two refreshes of one wrapper started at [t1] and then at [t2], no
    more than five minutes apart, reach the accessor's [update()] at most
    once between them; and a refresh that did not reach [update()] returned
    normally without changing the wrapper. *)
Theorem throttled_refreshes_update_at_most_once w t1 t2 :
  (t1 <= t2)%Z ->
  (t2 - t1 <= MIN_TIME_BETWEEN_UPDATES)%Z ->
  let first := async_update t1 w in
  let second := async_update t2 (snd first) in
  (update_calls (device (snd second)) <= update_calls (device w) + 1)%nat /\
  (update_calls (device (snd first)) = update_calls (device w) ->
   first = (Returns tt, w)) /\
  (update_calls (device (snd second)) = update_calls (device (snd first)) ->
   second = (Returns tt, snd first)).
Proof.
  intros Hord Hnear first second. subst first second.
  destruct (Throttle_admits MIN_TIME_BETWEEN_UPDATES t1 (_throttle w)) eqn:H1.
  - destruct (admitted_refresh_counts t1 w H1) as [Hc1 Hth1].
    assert (H2 : Throttle_admits MIN_TIME_BETWEEN_UPDATES t2
                   (_throttle (snd (async_update t1 w))) = false).
    { rewrite Hth1. now apply Throttle_closed_within. }
    rewrite (async_update_suppressed _ _ H2). simpl.
    split; [lia|]. split; [lia|reflexivity].
  - rewrite (async_update_suppressed _ _ H1). simpl.
    split; [|split; [reflexivity|]].
    + destruct (Throttle_admits MIN_TIME_BETWEEN_UPDATES t2 (_throttle w)) eqn:H2.
      * destruct (admitted_refresh_counts t2 w H2) as [Hc2 _]. lia.
      * rewrite (async_update_suppressed _ _ H2). simpl. lia.
    + destruct (Throttle_admits MIN_TIME_BETWEEN_UPDATES t2 (_throttle w)) eqn:H2.
      * destruct (admitted_refresh_counts t2 w H2) as [Hc2 _]. lia.
      * now rewrite (async_update_suppressed _ _ H2).
Qed.

End ThrottleFacts.

(** ** C7: the model string of [device_info] *)

Section RegistryFacts.
Context {D : Type} `{!Accessor D}.
Variables DOMAIN CONNECTION_NETWORK_MAC : string.
Implicit Types (w : MelCloudDevice D) (units : list UnitInfo).

Lemma concat_nonempty_head sep (s : string) (rest : list string) :
  s <> "" -> String.concat sep (s :: rest) <> "".
Proof.
  intros Hs. destruct s as [|c s]; [congruence|].
  destruct rest; cbn [String.concat]; discriminate.
Qed.

Lemma truthy_as_str (v : option string) :
  truthy v = true -> as_str v <> "".
Proof.
  destruct v as [[|c s]|]; simpl; discriminate.
Qed.

(** The list comprehension and [join] of the source compute the string the
    specification describes. *)
Lemma join_is_joined_models units :
  String.concat ", "
    (List.map (fun x => as_str (model x))
       (List.filter (fun x => truthy (model x)) units))
  = joined_models units.
Proof.
  induction units as [|u rest IH]; [reflexivity|].
  cbn [List.filter joined_models].
  destruct (model u) as [[|c m]|] eqn:Hm; cbn [truthy String.eqb negb];
    try exact IH.
  cbn [List.map]. rewrite Hm. cbn [as_str default]. rewrite <- IH.
  destruct (List.filter (fun x => truthy (model x)) rest) as [|u' kept] eqn:Hk.
  - reflexivity.
  - assert (Hin : In u' (List.filter (fun x => truthy (model x)) rest))
      by (rewrite Hk; left; reflexivity).
    apply filter_In in Hin as [_ Htr].
    pose proof (concat_nonempty_head ", " (as_str (model u'))
                  (List.map (fun x => as_str (model x)) kept)
                  (truthy_as_str _ Htr)) as Hne.
    cbn [List.map] in *.
    destruct (String.concat ", "
                (as_str (model u') :: List.map (fun x => as_str (model x)) kept))
      eqn:Hc; [congruence|].
    cbn [String.concat]. cbn [String.concat] in Hc. rewrite Hc. reflexivity.
Qed.

Lemma joined_models_all_empty units :
  Forall (fun u => model u = Some "") units -> joined_models units = "".
Proof.
  induction 1 as [|u rest Hu _ IH]; [reflexivity|].
  simpl. now rewrite Hu.
Qed.

(** C7. When the accessor has a units list, the model of [device_info] is
    the comma-space join of the units' non-empty model strings in order;
    units with models "A", "" and "B" give "A, B", and units whose models
    are all empty give the empty string. *)
Theorem device_info_model_is_joined_models w units :
  dev_units (device w) = Some units ->
  DeviceInfo.model (device_info DOMAIN CONNECTION_NETWORK_MAC w)
  = Some (joined_models units) /\
  (units = example_units ->
   DeviceInfo.model (device_info DOMAIN CONNECTION_NETWORK_MAC w)
   = Some "A, B") /\
  (Forall (fun u => model u = Some "") units ->
   DeviceInfo.model (device_info DOMAIN CONNECTION_NETWORK_MAC w) = Some "").
Proof.
  intros Hunits.
  assert (Hmodel : DeviceInfo.model (device_info DOMAIN CONNECTION_NETWORK_MAC w)
                   = Some (joined_models units)).
  { unfold device_info. cbn [DeviceInfo.model]. rewrite Hunits.
    now rewrite join_is_joined_models. }
  rewrite Hmodel. split; [reflexivity|]. split.
  - intros ->. reflexivity.
  - intros Hall. now rewrite joined_models_all_empty.
Qed.

End RegistryFacts.

(** ** C1: the writes of the entity adapters *)

Section AdapterFacts.
Context {D : Type} `{!Accessor D}.
Implicit Types (w : MelCloudDevice D).

Lemma set_device_straight (properties : Properties) w :
  straight_to_accessor properties w
    (let '(r, dev) := dev_set properties (device w) in (r, set_device w dev)).
Proof.
  unfold straight_to_accessor.
  destruct (dev_set properties (device w)) as [r dev]. repeat split.
Qed.

(** C1, as the code has it. Each write of an entity adapter (power switch
    on and off, fan-speed select, ventilation-mode select) calls [set()] on
    the accessor itself and not the wrapper's [async_set]: the caller gets
    the accessor's own outcome, returned or raised, and the owning
    wrapper's [available] is what it was before the write. *)
Theorem adapter_writes_go_straight_to_accessor w (option : string) :
  straight_to_accessor {[ "power" := PyBool true ]} w
    (PowerSwitch_async_turn_on w) /\
  straight_to_accessor {[ "power" := PyBool false ]} w
    (PowerSwitch_async_turn_off w) /\
  straight_to_accessor {[ "fan_speed" := PyStr option ]} w
    (ErvFanSpeedSelect_async_select_option option w) /\
  straight_to_accessor {[ "ventilation_mode" := PyStr option ]} w
    (ErvVentilationModeSelect_async_select_option option w).
Proof.
  repeat split; apply set_device_straight.
Qed.

End AdapterFacts.

(** C1 fails as stated: on a wrapper that a failed refresh left
    unavailable, each adapter write succeeds and the wrapper is still
    unavailable afterwards, where the wrapper's own [async_set] would have
    made it available. *)
Lemma adapter_write_leaves_wrapper_unavailable :
  available unreachable_once = false /\
  (fst (PowerSwitch_async_turn_on unreachable_once) = Returns tt /\
   available (snd (PowerSwitch_async_turn_on unreachable_once)) <> true) /\
  (fst (PowerSwitch_async_turn_off unreachable_once) = Returns tt /\
   available (snd (PowerSwitch_async_turn_off unreachable_once)) <> true) /\
  (fst (ErvFanSpeedSelect_async_select_option "2" unreachable_once)
   = Returns tt /\
   available (snd (ErvFanSpeedSelect_async_select_option "2" unreachable_once))
   <> true) /\
  (fst (ErvVentilationModeSelect_async_select_option "auto" unreachable_once)
   = Returns tt /\
   available
     (snd (ErvVentilationModeSelect_async_select_option "auto" unreachable_once))
   <> true) /\
  available (snd (async_set {[ "power" := PyBool true ]} unreachable_once))
  = true.
Proof.
  repeat split; try reflexivity; vm_compute; discriminate.
Qed.

(** ** C8: the bootstrap *)

Section BootstrapFacts.
Context {D : Type} `{!Accessor D}.
Variable DOMAIN : string.

Lemma wrapped_devices_lookup (all_devices : gmap string (list D))
  (device_type : string) :
  map_fold
    (fun device_type devices
         (wrapped_devices : gmap string (list (MelCloudDevice D))) =>
       <[device_type := List.map MelCloudDevice_init devices]> wrapped_devices)
    ∅ all_devices !! device_type
  = List.map MelCloudDevice_init <$> all_devices !! device_type.
Proof.
  apply (map_fold_weak_ind
           (fun (r : gmap string (list (MelCloudDevice D)))
                (m : gmap string (list D)) =>
              r !! device_type
              = List.map MelCloudDevice_init <$> m !! device_type)).
  - now rewrite !lookup_empty.
  - intros i x m r _ IH. destruct (decide (i = device_type)) as [->|Hne].
    + now rewrite !lookup_insert_eq.
    + now rewrite !lookup_insert_ne.
Qed.

Lemma mel_devices_setup_in_time (get_devices : Retrieval D) :
  (elapsed get_devices <= timedelta_seconds 10)%Z ->
  asyncio_timeout 10 (elapsed get_devices) (answer get_devices)
  = answer get_devices.
Proof.
  intros Hle. unfold asyncio_timeout. rewrite bool_decide_eq_false_2; [reflexivity|lia].
Qed.

Lemma mel_devices_setup_late (get_devices : Retrieval D) :
  (timedelta_seconds 10 < elapsed get_devices)%Z ->
  mel_devices_setup get_devices = Raises TimeoutError.
Proof.
  intros Hlt. unfold mel_devices_setup, asyncio_timeout.
  now rewrite bool_decide_eq_true_2.
Qed.

(** One wrapper per discovered device, class by class: what a successful
    [mel_devices_setup] returns. *)
Lemma mel_devices_setup_wraps (get_devices : Retrieval D) all_devices :
  (elapsed get_devices <= timedelta_seconds 10)%Z ->
  answer get_devices = Returns all_devices ->
  exists fleet,
    mel_devices_setup get_devices = Returns fleet /\
    forall device_type,
      fleet !! device_type
      = List.map MelCloudDevice_init <$> all_devices !! device_type.
Proof.
  intros Hle Hans. unfold mel_devices_setup.
  rewrite (mel_devices_setup_in_time _ Hle), Hans.
  eexists. split; [reflexivity|]. apply wrapped_devices_lookup.
Qed.

Lemma mel_devices_setup_raises (get_devices : Retrieval D) ex :
  (elapsed get_devices <= timedelta_seconds 10)%Z ->
  answer get_devices = Raises ex ->
  mel_devices_setup get_devices = Raises ex.
Proof.
  intros Hle Hans. unfold mel_devices_setup.
  now rewrite (mel_devices_setup_in_time _ Hle), Hans.
Qed.

(** Closes the four parts of the statement below once the bootstrap is
    known to raise. *)
Ltac bootstrap_failure :=
  cbn [fst snd]; repeat apply conj;
  [ intros [? ?]; first [congruence | split; [assumption|reflexivity]]
  | intros [? ?]; first [lia | congruence | eexists; reflexivity]
  | intros [?|?]; first [lia | congruence | eexists; reflexivity]
  | intros ? ?; reflexivity
  | intros ? ? ?; first [lia | congruence] ].

(** C8. The bootstrap raises the authentication-failure condition exactly
    when the inventory retrieval, within the ten-second deadline, is
    rejected with status 401; it raises the not-ready condition when the
    deadline is exceeded or the retrieval meets a connection failure;
    whenever it raises, nothing is stored; and when the retrieval returns
    in time, the stored fleet has, for each device class, one fresh wrapper
    per discovered device, in order. *)
Theorem bootstrap_conditions_and_fleet (entry_id : string)
  (get_devices : Retrieval D)
  (hass_data : gmap string (gmap string (gmap string (list (MelCloudDevice D))))) :
  let r := async_setup_entry DOMAIN entry_id get_devices hass_data in
  ((exists ex, fst r = Raises (ConfigEntryAuthFailed ex)) <->
   (elapsed get_devices <= timedelta_seconds 10)%Z /\
   answer get_devices = Raises (ClientResponseError 401)) /\
  ((timedelta_seconds 10 < elapsed get_devices)%Z \/
   answer get_devices = Raises ClientConnectionError ->
   exists ex, fst r = Raises (ConfigEntryNotReady ex)) /\
  (forall e, fst r = Raises e -> snd r = hass_data) /\
  (forall all_devices,
     (elapsed get_devices <= timedelta_seconds 10)%Z ->
     answer get_devices = Returns all_devices ->
     fst r = Returns true /\
     exists entries fleet,
       snd r !! DOMAIN = Some entries /\
       entries !! entry_id = Some fleet /\
       forall device_type,
         fleet !! device_type
         = List.map MelCloudDevice_init <$> all_devices !! device_type).
Proof.
  intros r. subst r. unfold async_setup_entry.
  destruct (Z_lt_le_dec (timedelta_seconds 10) (elapsed get_devices))
    as [Hlate|Hintime].
  - rewrite (mel_devices_setup_late _ Hlate). bootstrap_failure.
  - destruct (answer get_devices) as [all_devices|ex] eqn:Hans.
    + destruct (mel_devices_setup_wraps _ _ Hintime Hans)
        as (fleet & -> & Hfleet).
      cbn [fst snd]. repeat apply conj.
      * intros [ex Hex]. discriminate.
      * intros [_ Hraise]. discriminate.
      * intros [Hlate|Hraise]; [lia|discriminate].
      * intros e He. discriminate.
      * intros all_devices' _ [= <-]. split; [reflexivity|].
        exists (<[entry_id := fleet]> (default ∅ (hass_data !! DOMAIN))), fleet.
        rewrite !lookup_insert_eq. auto.
    + rewrite (mel_devices_setup_raises _ _ Hintime Hans).
      destruct ex as [|code| | |cls]; try bootstrap_failure.
      destruct (Z.eqb_spec code 401) as [->|Hcode]; bootstrap_failure.
Qed.

End BootstrapFacts.

(** * Closed instances

    Each property above that has a premise, at a scripted accessor. *)

(** A refresh rejected with 401 on a wrapper that was unavailable. *)
Lemma refresh_401_instance :
  Throttle_admits MIN_TIME_BETWEEN_UPDATES 0
    (_throttle (sample_unavailable [Some (ClientResponseError 401)] [])) = true /\
  fst (async_update 0 (sample_unavailable [Some (ClientResponseError 401)] []))
  = Raises (ClientResponseError 401) /\
  available
    (snd (async_update 0 (sample_unavailable [Some (ClientResponseError 401)] [])))
  = false.
Proof.
  split; [reflexivity|].
  apply (refresh_401_escapes_and_keeps_available 0
           (sample_unavailable [Some (ClientResponseError 401)] [])
           (scripted None [] [])); reflexivity.
Defined.

(** A refresh rejected with 500 on a wrapper that was unavailable. *)
Lemma refresh_500_instance :
  (500 <> 401)%Z /\
  fst (async_update 0 (sample_unavailable [Some (ClientResponseError 500)] []))
  = Returns tt /\
  available
    (snd (async_update 0 (sample_unavailable [Some (ClientResponseError 500)] [])))
  = true.
Proof.
  split; [lia|].
  apply (refresh_other_rejection_stays_available 0
           (sample_unavailable [Some (ClientResponseError 500)] [])
           (scripted None [] []) 500); [reflexivity|lia|reflexivity].
Defined.

(** A refresh that cannot connect, and one that succeeds on a wrapper that
    was unavailable. *)
Lemma refresh_connection_instance :
  (fst (async_update 0 (sample_wrapper [Some ClientConnectionError] []))
   = Returns tt /\
   available (snd (async_update 0 (sample_wrapper [Some ClientConnectionError] [])))
   = false) /\
  (fst (async_update 0 (sample_unavailable [None] [])) = Returns tt /\
   available (snd (async_update 0 (sample_unavailable [None] []))) = true).
Proof.
  split.
  - apply (proj1 (refresh_connection_failure_and_success 0
                    (sample_wrapper [Some ClientConnectionError] [])
                    (scripted None [] []) eq_refl)).
    reflexivity.
  - apply (proj2 (refresh_connection_failure_and_success 0
                    (sample_unavailable [None] [])
                    (scripted None [] []) eq_refl)).
    reflexivity.
Defined.

(** A refresh that meets a missing attribute. *)
Lemma refresh_attribute_error_instance :
  dev_update (device (sample_wrapper [Some AttributeError] []))
  = (Raises AttributeError, scripted None [] []) /\
  fst (async_update 0 (sample_wrapper [Some AttributeError] [])) = Returns tt /\
  available (snd (async_update 0 (sample_wrapper [Some AttributeError] [])))
  = false.
Proof.
  split; [reflexivity|].
  apply (refresh_attribute_error_marks_unavailable 0
           (sample_wrapper [Some AttributeError] [])
           (scripted None [] [])); reflexivity.
Defined.

(** Two refreshes exactly five minutes apart on a fresh wrapper: the first
    reaches [update()], the second does not. *)
Lemma throttled_refreshes_instance :
  (0 <= MIN_TIME_BETWEEN_UPDATES)%Z /\
  (MIN_TIME_BETWEEN_UPDATES - 0 <= MIN_TIME_BETWEEN_UPDATES)%Z /\
  (update_calls
     (device
        (snd (async_update MIN_TIME_BETWEEN_UPDATES
                (snd (async_update 0
                        (MelCloudDevice_init
                           {| inner := scripted None [] []; update_calls := 0;
                              set_calls := 0 |}))))))
   <= 0 + 1)%nat.
Proof.
  split; [vm_compute; discriminate|]. split; [vm_compute; discriminate|].
  apply (throttled_refreshes_update_at_most_once
           (MelCloudDevice_init
              {| inner := scripted None [] []; update_calls := 0;
                 set_calls := 0 |})
           0 MIN_TIME_BETWEEN_UPDATES); vm_compute; discriminate.
Defined.

(** The units of the specification's example. *)
Lemma device_info_model_instance :
  dev_units (device (MelCloudDevice_init (scripted (Some example_units) [] [])))
  = Some example_units /\
  DeviceInfo.model
    (device_info "melcloudwitherv" "mac"
       (MelCloudDevice_init (scripted (Some example_units) [] [])))
  = Some "A, B".
Proof.
  split; [reflexivity|].
  destruct (device_info_model_is_joined_models "melcloudwitherv" "mac"
              (MelCloudDevice_init (scripted (Some example_units) [] []))
              example_units) as (_ & Hexample & _); [reflexivity|].
  apply Hexample. reflexivity.
Defined.

(** A bootstrap whose retrieval returns two classes of one device each. *)
Lemma bootstrap_instance :
  (elapsed sample_retrieval <= timedelta_seconds 10)%Z /\
  fst (async_setup_entry "melcloudwitherv" "entry" sample_retrieval ∅)
  = Returns true /\
  exists entries fleet,
    snd (async_setup_entry "melcloudwitherv" "entry" sample_retrieval ∅)
      !! "melcloudwitherv" = Some entries /\
    entries !! "entry" = Some fleet /\
    forall device_type,
      fleet !! device_type
      = List.map MelCloudDevice_init <$> sample_inventory !! device_type.
Proof.
  split; [vm_compute; discriminate|].
  apply (proj2 (proj2 (proj2 (bootstrap_conditions_and_fleet "melcloudwitherv"
           "entry" sample_retrieval ∅))) sample_inventory);
    [vm_compute; discriminate | reflexivity].
Defined.

(** A write that cannot connect, and one that succeeds on a wrapper that
    was unavailable. *)
Lemma write_connection_instance :
  (fst (async_set {[ "power" := PyBool true ]}
          (sample_wrapper [] [Some ClientConnectionError])) = Returns tt /\
   available
     (snd (async_set {[ "power" := PyBool true ]}
             (sample_wrapper [] [Some ClientConnectionError]))) = false) /\
  (fst (async_set {[ "power" := PyBool true ]} (sample_unavailable [] []))
   = Returns tt /\
   available
     (snd (async_set {[ "power" := PyBool true ]} (sample_unavailable [] [])))
   = true).
Proof.
  split.
  - apply (proj1 (write_connection_failure_and_success
                    {[ "power" := PyBool true ]}
                    (sample_wrapper [] [Some ClientConnectionError])
                    (snd (dev_set {[ "power" := PyBool true ]}
                            (scripted None [] [Some ClientConnectionError]))))).
    reflexivity.
  - apply (proj2 (write_connection_failure_and_success
                    {[ "power" := PyBool true ]}
                    (sample_unavailable [] [])
                    (snd (dev_set {[ "power" := PyBool true ]}
                            (scripted None [] []))))).
    reflexivity.
Defined.

(** A write rejected with 401 on a wrapper that was unavailable. *)
Lemma write_401_instance :
  ClientResponseError 401 <> ClientConnectionError /\
  fst (async_set {[ "power" := PyBool true ]}
         (sample_unavailable [] [Some (ClientResponseError 401)]))
  = Raises (ClientResponseError 401) /\
  available
    (snd (async_set {[ "power" := PyBool true ]}
            (sample_unavailable [] [Some (ClientResponseError 401)])))
  = false.
Proof.
  split; [discriminate|].
  apply (write_other_failure_escapes {[ "power" := PyBool true ]}
           (sample_unavailable [] [Some (ClientResponseError 401)])
           (snd (dev_set {[ "power" := PyBool true ]}
                   (scripted None [] [Some (ClientResponseError 401)])))
           (ClientResponseError 401)); [discriminate|reflexivity].
Defined.

(** * Further properties of the package *)

(** ** A wrapper under any series of calls *)

Section CallFacts.
Context {D : Type} `{!Accessor D}.
Implicit Types (w : MelCloudDevice D) (c : Call) (cs : list Call).

Lemma async_update_wrapped_name w :
  name (snd (async_update_wrapped w)) = name w.
Proof.
  unfold async_update_wrapped.
  destruct (dev_update (device w)) as [[u|ex] d]; [reflexivity|].
  destruct ex as [|status| | |cls]; try reflexivity.
  now destruct (status =? 401)%Z.
Qed.

Lemma call_name c w : name (snd (call c w)) = name w.
Proof.
  destruct c as [now|properties| | |option|option]; cbn [call].
  - unfold async_update.
    destruct (Throttle_admits _ _ _); [|reflexivity].
    now rewrite async_update_wrapped_name.
  - unfold async_set.
    destruct (dev_set properties (device w)) as [[u|ex] d]; [reflexivity|].
    now destruct ex.
  - unfold PowerSwitch_async_turn_on. now destruct (dev_set _ _).
  - unfold PowerSwitch_async_turn_off. now destruct (dev_set _ _).
  - unfold ErvFanSpeedSelect_async_select_option. now destruct (dev_set _ _).
  - unfold ErvVentilationModeSelect_async_select_option.
    now destruct (dev_set _ _).
Qed.

Lemma calls_cons c cs w : calls (c :: cs) w = calls cs (snd (call c w)).
Proof. reflexivity. Qed.

Lemma calls_name cs w : name (calls cs w) = name w.
Proof.
  revert w. induction cs as [|c cs IH]; intros w; [reflexivity|].
  now rewrite calls_cons, IH, call_name.
Qed.

(** The wrapper's name, and with it the name in [device_info], is the
    accessor's name at construction: no refresh and no write, in any
    number and order, brings it up to date. *)
Theorem name_is_fixed_at_construction (DOMAIN CONNECTION_NETWORK_MAC : string)
  (d : D) cs :
  name (calls cs (MelCloudDevice_init d)) = dev_name d /\
  DeviceInfo.name
    (device_info DOMAIN CONNECTION_NETWORK_MAC (calls cs (MelCloudDevice_init d)))
  = dev_name d.
Proof.
  assert (Hname : name (calls cs (MelCloudDevice_init d)) = dev_name d)
    by now rewrite calls_name.
  split; [exact Hname|]. unfold device_info. cbn [DeviceInfo.name]. exact Hname.
Qed.


Lemma call_throttle c w :
  is_refresh c = false -> _throttle (snd (call c w)) = _throttle w.
Proof.
  destruct c as [now|properties| | |option|option]; cbn [call is_refresh];
    intros Hc; try discriminate.
  - unfold async_set.
    destruct (dev_set properties (device w)) as [[u|ex] d]; [reflexivity|].
    now destruct ex.
  - unfold PowerSwitch_async_turn_on. now destruct (dev_set _ _).
  - unfold PowerSwitch_async_turn_off. now destruct (dev_set _ _).
  - unfold ErvFanSpeedSelect_async_select_option. now destruct (dev_set _ _).
  - unfold ErvVentilationModeSelect_async_select_option.
    now destruct (dev_set _ _).
Qed.

Lemma call_entity_available c w :
  is_refresh c = false -> is_wrapper_write c = false ->
  available (snd (call c w)) = available w.
Proof.
  destruct c as [now|properties| | |option|option];
    cbn [call is_refresh is_wrapper_write]; intros Hr Hw; try discriminate.
  - unfold PowerSwitch_async_turn_on. now destruct (dev_set _ _).
  - unfold PowerSwitch_async_turn_off. now destruct (dev_set _ _).
  - unfold ErvFanSpeedSelect_async_select_option. now destruct (dev_set _ _).
  - unfold ErvVentilationModeSelect_async_select_option.
    now destruct (dev_set _ _).
Qed.

End CallFacts.

(** ** What reaches the accessor *)

Section CountedCallFacts.
Context {D : Type} `{!Accessor D}.
Implicit Types (w : MelCloudDevice (Counted D)) (c : Call) (cs : list Call).

Lemma write_call_counts c w :
  is_refresh c = false ->
  update_calls (device (snd (call c w))) = update_calls (device w) /\
  set_calls (device (snd (call c w))) = S (set_calls (device w)).
Proof.
  destruct c as [now|properties| | |option|option]; cbn [call is_refresh];
    intros Hc; try discriminate.
  - unfold async_set. cbn [dev_set Counted_Accessor].
    destruct (dev_set properties (inner (device w))) as [[u|ex] d];
      [split; reflexivity|].
    destruct ex; split; reflexivity.
  - unfold PowerSwitch_async_turn_on. cbn [dev_set Counted_Accessor].
    destruct (dev_set _ (inner (device w))). split; reflexivity.
  - unfold PowerSwitch_async_turn_off. cbn [dev_set Counted_Accessor].
    destruct (dev_set _ (inner (device w))). split; reflexivity.
  - unfold ErvFanSpeedSelect_async_select_option.
    cbn [dev_set Counted_Accessor].
    destruct (dev_set _ (inner (device w))). split; reflexivity.
  - unfold ErvVentilationModeSelect_async_select_option.
    cbn [dev_set Counted_Accessor].
    destruct (dev_set _ (inner (device w))). split; reflexivity.
Qed.

Lemma refresh_call_sets now w :
  set_calls (device (snd (async_update now w))) = set_calls (device w).
Proof.
  unfold async_update.
  destruct (Throttle_admits _ _ _); [|reflexivity].
  unfold async_update_wrapped. cbn [dev_update Counted_Accessor device set_throttle].
  destruct (dev_update (inner (device w))) as [[u|ex] d]; [reflexivity|].
  destruct ex as [|status| | |cls]; try reflexivity.
  now destruct (status =? 401)%Z.
Qed.

Lemma refresh_call_updates now w :
  (update_calls (device (snd (async_update now w)))
   <= S (update_calls (device w)))%nat.
Proof.
  destruct (Throttle_admits MIN_TIME_BETWEEN_UPDATES now (_throttle w)) eqn:Hadm.
  - destruct (admitted_refresh_counts now w Hadm) as [-> _]. lia.
  - rewrite (async_update_suppressed _ _ Hadm). cbn [snd]. lia.
Qed.

(** Every write, the wrapper's or an entity's, reaches the accessor's
    [set()] exactly once and is followed by no [update()]; a refresh never
    calls [set()] and calls [update()] at most once. So over any series of
    calls the [set()] calls are as many as the writes, and the [update()]
    calls at most as many as the refreshes. *)
Theorem writes_reach_set_once_and_never_update cs w :
  set_calls (device (calls cs w))
  = (set_calls (device w)
     + length (List.filter (fun c => negb (is_refresh c)) cs))%nat /\
  (update_calls (device (calls cs w))
   <= update_calls (device w) + length (List.filter is_refresh cs))%nat.
Proof.
  revert w. induction cs as [|c cs IH]; intros w.
  - cbn. split; lia.
  - rewrite calls_cons. destruct (IH (snd (call c w))) as [IHs IHu].
    cbn [List.filter]. destruct (is_refresh c) eqn:Hc; cbn [negb length].
    + destruct c; try discriminate. cbn [call] in *.
      rewrite refresh_call_sets in IHs.
      pose proof (refresh_call_updates now w). split; lia.
    + destruct (write_call_counts c w Hc) as [Hu Hs].
      rewrite Hu in IHu. rewrite Hs in IHs. split; lia.
Qed.

Lemma suppressed_calls_keep_count t cs w :
  _throttle w = Some t ->
  refreshes_within (t - MIN_TIME_BETWEEN_UPDATES)
    (t + MIN_TIME_BETWEEN_UPDATES) cs ->
  update_calls (device (calls cs w)) = update_calls (device w) /\
  _throttle (calls cs w) = Some t.
Proof.
  revert w. induction cs as [|c cs IH]; intros w Hth Hin; [now split|].
  apply Forall_cons in Hin as [Hc Hin]. rewrite calls_cons.
  destruct (is_refresh c) eqn:Hr.
  - destruct c as [now| | | | |]; try discriminate. cbn [call].
    assert (Hsup : Throttle_admits MIN_TIME_BETWEEN_UPDATES now (_throttle w)
                   = false).
    { rewrite Hth. apply Throttle_closed_within. lia. }
    rewrite (async_update_suppressed _ _ Hsup). cbn [snd]. now apply IH.
  - destruct (write_call_counts c w Hr) as [Hu _].
    rewrite <- Hu, <- (call_throttle c w Hr) in *.
    apply IH; [|exact Hin]. now rewrite Hth.
Qed.

(** Refreshes that all start within one span of five minutes reach the
    accessor's [update()] at most once between them, however many they are
    and whatever writes come in between: a write does not reopen the
    throttle. *)
Theorem refreshes_in_one_window_update_at_most_once lo hi cs w :
  (hi - lo <= MIN_TIME_BETWEEN_UPDATES)%Z ->
  refreshes_within lo hi cs ->
  (update_calls (device (calls cs w)) <= update_calls (device w) + 1)%nat.
Proof.
  intros Hspan. revert w. induction cs as [|c cs IH]; intros w Hin.
  - cbn. lia.
  - pose proof Hin as Hall. apply Forall_cons in Hin as [Hc Hin].
    rewrite calls_cons. destruct (is_refresh c) eqn:Hr.
    + destruct c as [now| | | | |]; try discriminate. cbn [call].
      destruct (Throttle_admits MIN_TIME_BETWEEN_UPDATES now (_throttle w))
        eqn:Hadm.
      * destruct (admitted_refresh_counts now w Hadm) as [Hu Hth].
        destruct (suppressed_calls_keep_count now cs
                    (snd (async_update now w)) Hth) as [Hsame _].
        { eapply Forall_impl; [exact Hin|]. intros [t| | | | |]; cbn; lia. }
        rewrite Hsame, Hu. lia.
      * rewrite (async_update_suppressed _ _ Hadm). cbn [snd]. now apply IH.
    + destruct (write_call_counts c w Hr) as [Hu _]. rewrite <- Hu.
      now apply IH.
Qed.

(** Once a refresh has been let through at [t], the refreshes of the next
    five minutes change nothing, and neither do the writes of the entities:
    with no call of the wrapper's own write in between, [available] stays
    what that refresh left, and [update()] is not called again. *)
Theorem availability_is_frozen_inside_the_window t cs w :
  _throttle w = Some t ->
  refreshes_within t (t + MIN_TIME_BETWEEN_UPDATES) cs ->
  Forall (fun c => is_wrapper_write c = false) cs ->
  available (calls cs w) = available w /\
  update_calls (device (calls cs w)) = update_calls (device w).
Proof.
  revert w. induction cs as [|c cs IH]; intros w Hth Hin Hnw; [now split|].
  apply Forall_cons in Hin as [Hc Hin]. apply Forall_cons in Hnw as [Hw Hnw].
  rewrite calls_cons. destruct (is_refresh c) eqn:Hr.
  - destruct c as [now| | | | |]; try discriminate. cbn [call].
    assert (Hsup : Throttle_admits MIN_TIME_BETWEEN_UPDATES now (_throttle w)
                   = false).
    { rewrite Hth. apply Throttle_closed_within. lia. }
    rewrite (async_update_suppressed _ _ Hsup). cbn [snd]. now apply IH.
  - destruct (write_call_counts c w Hr) as [Hu _].
    rewrite <- Hu, <- (call_entity_available c w Hr Hw).
    apply IH; [|exact Hin|exact Hnw]. now rewrite (call_throttle c w Hr).
Qed.

End CountedCallFacts.

(** ** Set-up and unload of a config entry *)

Section LifecycleFacts.
Context {D : Type} `{!Accessor D}.
Variable DOMAIN : string.
Implicit Types
  (hass_data : gmap string (gmap string (gmap string (list (MelCloudDevice D)))))
  (entries : gmap string (gmap string (list (MelCloudDevice D))))
  (get_devices : Retrieval D).

Lemma async_setup_entry_stores entry_id get_devices all_devices hass_data :
  (elapsed get_devices <= timedelta_seconds 10)%Z ->
  answer get_devices = Returns all_devices ->
  exists fleet,
    async_setup_entry DOMAIN entry_id get_devices hass_data
    = (Returns true,
       <[DOMAIN := <[entry_id := fleet]> (default ∅ (hass_data !! DOMAIN))]>
         hass_data).
Proof.
  intros Hle Hans. unfold async_setup_entry.
  destruct (mel_devices_setup_wraps _ _ Hle Hans) as (fleet & -> & _).
  now exists fleet.
Qed.

Lemma async_setup_entry_outcome entry_id get_devices hass_data :
  (exists fleet,
     async_setup_entry DOMAIN entry_id get_devices hass_data
     = (Returns true,
        <[DOMAIN := <[entry_id := fleet]> (default ∅ (hass_data !! DOMAIN))]>
          hass_data)) \/
  (exists e,
     async_setup_entry DOMAIN entry_id get_devices hass_data
     = (Raises e, hass_data)).
Proof.
  unfold async_setup_entry.
  destruct (mel_devices_setup get_devices) as [fleet|ex]; [left; eauto|right].
  destruct ex as [|code| | |cls]; eauto. destruct (code =? 401)%Z; eauto.
Qed.

(** Unloading an entry right after its set-up gives back [hass.data] as it
    was before, whatever the hub's platform unload answered, provided the
    entry id was not in use and [hass.data] held no empty dictionary under
    the domain. *)
Theorem unload_undoes_setup entry_id get_devices all_devices
  (unload_ok : bool) hass_data :
  (elapsed get_devices <= timedelta_seconds 10)%Z ->
  answer get_devices = Returns all_devices ->
  hass_data !! DOMAIN <> Some ∅ ->
  (forall entries, hass_data !! DOMAIN = Some entries ->
                   entries !! entry_id = None) ->
  async_unload_entry DOMAIN entry_id (Returns unload_ok)
    (snd (async_setup_entry DOMAIN entry_id get_devices hass_data))
  = (Returns unload_ok, hass_data).
Proof.
  intros Hle Hans Hne Hfree.
  destruct (async_setup_entry_stores entry_id _ _ hass_data Hle Hans)
    as (fleet & ->).
  cbn [snd]. unfold async_unload_entry.
  rewrite lookup_insert_eq, lookup_insert_eq, insert_insert_eq.
  destruct (hass_data !! DOMAIN) as [entries|] eqn:Hdom; cbn [default].
  - rewrite (delete_insert_id _ _ _ (Hfree entries eq_refl)).
    destruct (decide (entries = ∅)) as [->|_]; [congruence|].
    now rewrite (insert_id _ _ _ Hdom).
  - rewrite (delete_insert_id _ _ _ (lookup_empty entry_id)).
    destruct (decide (∅ = ∅)) as [_|Hn]; [|congruence].
    now rewrite (delete_insert_id _ _ _ Hdom).
Qed.


(** A successful unload removes its own entry and nothing else: a platform
    set-up for that id now meets [KeyError], every other entry of the
    domain reads as before, and so does every other domain. The entry is
    removed even when the hub answered false. *)
Theorem unload_removes_only_its_entry entry_id (unload_ok : bool) hass_data
  entries fleet :
  hass_data !! DOMAIN = Some entries ->
  entries !! entry_id = Some fleet ->
  let r := async_unload_entry DOMAIN entry_id (Returns unload_ok) hass_data in
  fst r = Returns unload_ok /\
  entry_fleet DOMAIN entry_id (snd r) = Raises KeyError /\
  (forall other, other <> entry_id ->
     entry_fleet DOMAIN other (snd r) = entry_fleet DOMAIN other hass_data) /\
  (forall domain, domain <> DOMAIN -> snd r !! domain = hass_data !! domain).
Proof.
  intros Hdom Hentry r. subst r. unfold async_unload_entry.
  rewrite Hdom, Hentry. unfold entry_fleet, subscript. rewrite Hdom.
  destruct (decide (delete entry_id entries = ∅)) as [Hempty|Hfull];
    cbn [fst snd]; (split; [reflexivity|]).
  - rewrite lookup_delete_eq. split; [reflexivity|]. split.
    + intros other Hother.
      assert (Hnone : entries !! other = None).
      { rewrite <- (lookup_delete_ne entries entry_id other) by congruence.
        rewrite Hempty. apply lookup_empty. }
      now rewrite Hnone.
    + intros domain Hdomain.
      rewrite lookup_delete_ne by congruence.
      now rewrite lookup_insert_ne by congruence.
  - rewrite lookup_insert_eq, lookup_delete_eq. split; [reflexivity|]. split.
    + intros other Hother. now rewrite lookup_delete_ne by congruence.
    + intros domain Hdomain. now rewrite lookup_insert_ne by congruence.
Qed.

(** A set-up touches only its own entry: every other entry of the domain
    and every other domain read as before, whether it returns or raises. *)
Theorem setup_stores_only_its_entry entry_id get_devices hass_data :
  let r := async_setup_entry DOMAIN entry_id get_devices hass_data in
  (forall other, other <> entry_id ->
     entry_fleet DOMAIN other (snd r) = entry_fleet DOMAIN other hass_data) /\
  (forall domain, domain <> DOMAIN -> snd r !! domain = hass_data !! domain).
Proof.
  intros r. subst r.
  destruct (async_setup_entry_outcome entry_id get_devices hass_data)
    as [[fleet ->]|[e ->]]; cbn [snd]; [|split; reflexivity].
  split.
  - intros other Hother. unfold entry_fleet, subscript.
    rewrite lookup_insert_eq, lookup_insert_ne by congruence.
    destruct (hass_data !! DOMAIN); cbn [default]; [reflexivity|].
    now rewrite lookup_empty.
  - intros domain Hdomain. now rewrite lookup_insert_ne by congruence.
Qed.

(** Neither a set-up nor an unload leaves an empty dictionary under the
    domain: if there was none before, there is none after. *)
Theorem no_empty_domain_dictionary entry_id get_devices
  (async_unload_platforms : outcome Exception bool) hass_data :
  hass_data !! DOMAIN <> Some ∅ ->
  snd (async_setup_entry DOMAIN entry_id get_devices hass_data) !! DOMAIN
  <> Some ∅ /\
  snd (async_unload_entry DOMAIN entry_id async_unload_platforms hass_data)
    !! DOMAIN <> Some ∅.
Proof.
  intros Hne. split.
  - destruct (async_setup_entry_outcome entry_id get_devices hass_data)
      as [[fleet ->]|[e ->]]; cbn [snd]; [|exact Hne].
    rewrite lookup_insert_eq. intros [= Hempty].
    now apply insert_non_empty in Hempty.
  - unfold async_unload_entry.
    destruct async_unload_platforms as [ok|e]; [|exact Hne].
    destruct (hass_data !! DOMAIN) as [entries|] eqn:Hdom;
      [|cbn [snd]; congruence].
    destruct (entries !! entry_id); [|cbn [snd]; congruence].
    destruct (decide (delete entry_id entries = ∅)) as [Hempty|Hfull];
      cbn [snd].
    + now rewrite lookup_delete_eq.
    + rewrite lookup_insert_eq. congruence.
Qed.

(** The set-up raises the not-ready condition exactly when the deadline is
    exceeded or the retrieval raises a connection failure, a
    [TimeoutError] or a rejection with a status other than 401; an
    [AttributeError] or an exception of another class leaves the set-up as
    it is, under neither condition. *)
Theorem bootstrap_not_ready_exactly entry_id get_devices hass_data :
  let r := async_setup_entry DOMAIN entry_id get_devices hass_data in
  ((exists ex, fst r = Raises (ConfigEntryNotReady ex)) <->
   (timedelta_seconds 10 < elapsed get_devices)%Z \/
   answer get_devices = Raises ClientConnectionError \/
   answer get_devices = Raises TimeoutError \/
   exists status, status <> 401%Z /\
                  answer get_devices = Raises (ClientResponseError status)) /\
  (forall ex, fst r = Raises (Uncaught ex) <->
     (elapsed get_devices <= timedelta_seconds 10)%Z /\
     answer get_devices = Raises ex /\
     (ex = AttributeError \/ exists cls, ex = OtherError cls)).
Proof.
  intros r. subst r. unfold async_setup_entry.
  destruct (Z_lt_le_dec (timedelta_seconds 10) (elapsed get_devices))
    as [Hlate|Hintime].
  - rewrite (mel_devices_setup_late _ Hlate). cbn [fst]. split.
    + split; [auto|eauto].
    + intros ex. split; [discriminate|intros [? _]; lia].
  - destruct (answer get_devices) as [all_devices|e] eqn:Hans.
    + destruct (mel_devices_setup_wraps _ _ Hintime Hans) as (fleet & -> & _).
      cbn [fst]. split.
      * split; [intros [? ?]; discriminate|].
        intros [?|[?|[?|(? & _ & ?)]]]; first [lia|discriminate].
      * intros ex. split; [discriminate|intros (_ & ? & _); discriminate].
    + rewrite (mel_devices_setup_raises _ _ Hintime Hans).
      destruct e as [|code| | |cls].
      * cbn [fst]. split; [split; [auto|eauto]|].
        intros ex. split; [discriminate|].
        intros (_ & [= <-] & [?|[? ?]]); discriminate.
      * destruct (Z.eqb_spec code 401) as [->|Hcode]; cbn [fst]; split.
        -- split; [intros [? ?]; discriminate|].
           intros [?|[?|[?|(? & ? & [= ?])]]]; first [lia|discriminate|congruence].
        -- intros ex. split; [discriminate|].
           intros (_ & [= <-] & [?|[? ?]]); discriminate.
        -- split; [intros _; right; right; right; eauto|eauto].
        -- intros ex. split; [discriminate|].
           intros (_ & [= <-] & [?|[? ?]]); discriminate.
      * cbn [fst]. split.
        -- split; [intros [? ?]; discriminate|].
           intros [?|[?|[?|(? & _ & ?)]]]; first [lia|discriminate].
        -- intros ex. split; [intros [= <-]; auto|intros (_ & [= <-] & _); reflexivity].
      * cbn [fst]. split; [split; [auto|eauto]|].
        intros ex. split; [discriminate|].
        intros (_ & [= <-] & [?|[? ?]]); discriminate.
      * cbn [fst]. split.
        -- split; [intros [? ?]; discriminate|].
           intros [?|[?|[?|(? & _ & ?)]]]; first [lia|discriminate].
        -- intros ex. split; [intros [= <-]; eauto|intros (_ & [= <-] & _); reflexivity].
Qed.

End LifecycleFacts.

(** ** The platform set-ups and the entities *)

Section PlatformFacts.
Context {D : Type} `{!Accessor D}.
Variables DOMAIN CONNECTION_NETWORK_MAC : string.
Variables DEVICE_TYPE_ATA DEVICE_TYPE_ATW DEVICE_TYPE_ERV : string.
Implicit Types
  (hass_data : gmap string (gmap string (gmap string (list (MelCloudDevice D)))))
  (mel_devices : gmap string (list (MelCloudDevice D)))
  (get_devices : Retrieval D).

Lemma entry_fleet_after_setup entry_id get_devices all_devices hass_data :
  (elapsed get_devices <= timedelta_seconds 10)%Z ->
  answer get_devices = Returns all_devices ->
  exists fleet,
    entry_fleet DOMAIN entry_id
      (snd (async_setup_entry DOMAIN entry_id get_devices hass_data))
    = Returns fleet /\
    forall device_type,
      fleet !! device_type
      = List.map MelCloudDevice_init <$> all_devices !! device_type.
Proof.
  intros Hle Hans.
  unfold async_setup_entry.
  destruct (mel_devices_setup_wraps _ _ Hle Hans) as (fleet & -> & Hfleet).
  exists fleet. split; [|exact Hfleet]. cbn [snd].
  unfold entry_fleet, subscript. now rewrite !lookup_insert_eq.
Qed.

(** After a bootstrap whose inventory has the three device classes, the
    switch platform builds one power switch per discovered device, the
    ventilators first, then the air-to-air and the air-to-water units, each
    on a fresh wrapper of its device. *)
Theorem switch_entities_after_bootstrap entry_id get_devices all_devices
  hass_data erv ata atw :
  (elapsed get_devices <= timedelta_seconds 10)%Z ->
  answer get_devices = Returns all_devices ->
  all_devices !! DEVICE_TYPE_ERV = Some erv ->
  all_devices !! DEVICE_TYPE_ATA = Some ata ->
  all_devices !! DEVICE_TYPE_ATW = Some atw ->
  switch_async_setup_entry DOMAIN CONNECTION_NETWORK_MAC DEVICE_TYPE_ATA
    DEVICE_TYPE_ATW DEVICE_TYPE_ERV entry_id
    (snd (async_setup_entry DOMAIN entry_id get_devices hass_data))
  = Returns
      (List.map
         (fun d => PowerSwitch
                     (Entity_init DOMAIN CONNECTION_NETWORK_MAC
                        (MelCloudDevice_init d) d))
         (erv ++ ata ++ atw)%list).
Proof.
  intros Hle Hans Herv Hata Hatw.
  destruct (entry_fleet_after_setup entry_id _ _ hass_data Hle Hans)
    as (fleet & Hfleet & Hwrap).
  unfold switch_async_setup_entry. rewrite Hfleet. unfold subscript.
  rewrite !Hwrap, Herv, Hata, Hatw. cbn [fmap option_fmap option_map].
  rewrite !List.map_app, !List.map_map. reflexivity.
Qed.

(** After a bootstrap whose inventory has the ventilator class, the select
    platform builds one fan-speed select per ventilator, then one
    ventilation-mode select per ventilator; the other classes are not
    looked at. *)
Theorem select_entities_after_bootstrap entry_id get_devices all_devices
  hass_data erv :
  (elapsed get_devices <= timedelta_seconds 10)%Z ->
  answer get_devices = Returns all_devices ->
  all_devices !! DEVICE_TYPE_ERV = Some erv ->
  select_async_setup_entry DOMAIN CONNECTION_NETWORK_MAC DEVICE_TYPE_ERV
    entry_id
    (snd (async_setup_entry DOMAIN entry_id get_devices hass_data))
  = Returns
      (List.map
         (fun d => ErvFanSpeedSelect
                     (Entity_init DOMAIN CONNECTION_NETWORK_MAC
                        (MelCloudDevice_init d) d))
         erv
       ++ List.map
            (fun d => ErvVentilationModeSelect
                        (Entity_init DOMAIN CONNECTION_NETWORK_MAC (MelCloudDevice_init d) d))
            erv)%list.
Proof.
  intros Hle Hans Herv.
  destruct (entry_fleet_after_setup entry_id _ _ hass_data Hle Hans)
    as (fleet & Hfleet & Hwrap).
  unfold select_async_setup_entry. rewrite Hfleet. unfold subscript.
  rewrite !Hwrap, Herv. cbn [fmap option_fmap option_map].
  rewrite !List.map_map. reflexivity.
Qed.

(** On a stored fleet, the switch set-up raises [KeyError] exactly when one
    of the three device classes is missing from it, and the select set-up
    exactly when the ventilator class is missing. *)
Theorem platform_setups_need_their_classes entry_id hass_data mel_devices :
  entry_fleet DOMAIN entry_id hass_data = Returns mel_devices ->
  (switch_async_setup_entry DOMAIN CONNECTION_NETWORK_MAC DEVICE_TYPE_ATA
    DEVICE_TYPE_ATW DEVICE_TYPE_ERV entry_id hass_data = Raises KeyError <->
   mel_devices !! DEVICE_TYPE_ERV = None \/
   mel_devices !! DEVICE_TYPE_ATA = None \/
   mel_devices !! DEVICE_TYPE_ATW = None) /\
  (select_async_setup_entry DOMAIN CONNECTION_NETWORK_MAC DEVICE_TYPE_ERV
    entry_id hass_data = Raises KeyError <->
   mel_devices !! DEVICE_TYPE_ERV = None).
Proof.
  intros Hfleet.
  unfold switch_async_setup_entry, select_async_setup_entry.
  rewrite Hfleet. unfold subscript.
  destruct (mel_devices !! DEVICE_TYPE_ERV) as [erv|];
    [|split; split; auto].
  split; [|split; discriminate].
  destruct (mel_devices !! DEVICE_TYPE_ATA) as [ata|]; [|split; auto].
  destruct (mel_devices !! DEVICE_TYPE_ATW) as [atw|]; [|split; auto].
  split; [discriminate|]. intros [?|[?|?]]; discriminate.
Qed.

(** Every entity either set-up builds holds, as its accessor, the accessor
    of the wrapper it holds, and as its device info, that wrapper's. So a
    call an entity makes on its accessor is a call on the accessor its
    wrapper refreshes. *)
Theorem entities_share_the_accessor_of_their_wrapper entry_id hass_data
  entities :
  switch_async_setup_entry DOMAIN CONNECTION_NETWORK_MAC DEVICE_TYPE_ATA
    DEVICE_TYPE_ATW DEVICE_TYPE_ERV entry_id hass_data = Returns entities \/
  select_async_setup_entry DOMAIN CONNECTION_NETWORK_MAC DEVICE_TYPE_ERV
    entry_id hass_data = Returns entities ->
  Forall (bound_to_its_wrapper DOMAIN CONNECTION_NETWORK_MAC) entities.
Proof.
  unfold switch_async_setup_entry, select_async_setup_entry, subscript.
  destruct (entry_fleet DOMAIN entry_id hass_data) as [mel_devices|ex];
    [|intros [?|?]; discriminate].
  destruct (mel_devices !! DEVICE_TYPE_ERV) as [erv|];
    [|intros [?|?]; discriminate].
  intros [Hswitch|[= <-]].
  - destruct (mel_devices !! DEVICE_TYPE_ATA) as [ata|]; [|discriminate].
    destruct (mel_devices !! DEVICE_TYPE_ATW) as [atw|]; [|discriminate].
    injection Hswitch as <-.
    rewrite !Forall_app. repeat split;
      apply List.Forall_map, Forall_forall; intros w _; split; reflexivity.
  - rewrite Forall_app. split;
      apply List.Forall_map, Forall_forall; intros w _; split; reflexivity.
Qed.

Lemma last_char_app (s : string) c t :
  last_char (s +:+ String c t) = last_char (String c t).
Proof.
  induction s as [|a s IH]; [reflexivity|].
  change (String a s +:+ String c t) with (String a (s +:+ String c t)).
  cbn [last_char]. rewrite IH.
  destruct s; reflexivity.
Qed.

Lemma last_char_cons_app c (s : string) c' t :
  last_char (String c (s +:+ String c' t)) = last_char (String c' t).
Proof.
  change (String c (s +:+ String c' t)) with (String c s +:+ String c' t).
  apply last_char_app.
Qed.

(** Character 45 is the hyphen of the unique ids. *)
Lemma last_char_of_unique_id (serial mac : string) c t :
  last_char (serial +:+ "-" +:+ mac +:+ String c t) = last_char (String c t).
Proof.
  change (serial +:+ "-" +:+ mac +:+ String c t)
    with (serial +:+ String (Ascii.ascii_of_nat 45) (mac +:+ String c t)).
  now rewrite last_char_app, last_char_cons_app.
Qed.

(** Entities of different classes never have the same unique id, whatever
    the serial numbers and addresses of their devices. *)
Theorem unique_ids_tell_the_classes_apart (e1 e2 : Entity D) :
  unique_id e1 = unique_id e2 -> same_class e1 e2.
Proof.
  intros Heq.
  assert (Hlast : last_char (unique_id e1) = last_char (unique_id e2))
    by now rewrite Heq.
  clear Heq.
  destruct e1 as [f1|f1|f1], e2 as [f2|f2|f2]; cbn [same_class];
    try exact I; exfalso;
    cbn [unique_id] in Hlast;
    rewrite !last_char_of_unique_id in Hlast;
    discriminate Hlast.
Qed.

End PlatformFacts.

(** ** Zones in the device registry *)

Section ZoneFacts.
Context {D : Type} `{!Accessor D}.
Variables DOMAIN CONNECTION_NETWORK_MAC : string.
Implicit Types (w : MelCloudDevice D) (z : Zone.t).

Lemma append_nonempty_differs (s : string) c t : s <> s +:+ String c t.
Proof.
  induction s as [|a s IH]; [discriminate|].
  change (String a s +:+ String c t) with (String a (s +:+ String c t)).
  intros [= Heq]. now apply IH.
Qed.

Lemma zone_identifier_inj (mac serial : string) (i j : Z) :
  mac +:+ "-" +:+ serial +:+ "-" +:+ pretty i
  = mac +:+ "-" +:+ serial +:+ "-" +:+ pretty j ->
  i = j.
Proof.
  intros Heq. do 4 apply (inj (String.app _)) in Heq.
  now apply (inj pretty) in Heq.
Qed.

(** A zone is registered under its device: the identifier it names as its
    parent is the one identifier of its wrapper's [device_info], it is not
    the zone's own, and two zones of one device have the same identifier
    only if they have the same zone index. *)
Theorem zone_is_registered_under_its_device w z z1 z2 :
  DeviceInfo.identifiers (device_info DOMAIN CONNECTION_NETWORK_MAC w)
  = {[ ZoneDeviceInfo.via_device (zone_device_info DOMAIN w z) ]} /\
  (ZoneDeviceInfo.via_device (zone_device_info DOMAIN w z)
   ∉ ZoneDeviceInfo.identifiers (zone_device_info DOMAIN w z)) /\
  (ZoneDeviceInfo.identifiers (zone_device_info DOMAIN w z1)
   = ZoneDeviceInfo.identifiers (zone_device_info DOMAIN w z2) <->
   Zone.zone_index z1 = Zone.zone_index z2).
Proof.
  split; [reflexivity|]. split.
  - unfold zone_device_info.
    cbn [ZoneDeviceInfo.via_device ZoneDeviceInfo.identifiers].
    rewrite elem_of_singleton. intros [= Heq].
    do 2 apply (inj (String.app _)) in Heq.
    now apply append_nonempty_differs in Heq.
  - unfold zone_device_info. cbn [ZoneDeviceInfo.identifiers]. split.
    + intros Heq.
      assert (Hin : (DOMAIN,
                     dev_mac (device w) +:+ "-" +:+ dev_serial (device w)
                     +:+ "-" +:+ pretty (Zone.zone_index z1))
                    ∈ ({[ (DOMAIN,
                           dev_mac (device w) +:+ "-" +:+ dev_serial (device w)
                           +:+ "-" +:+ pretty (Zone.zone_index z2)) ]}
                       : gset (string * string))).
      { rewrite <- Heq. now apply elem_of_singleton. }
      apply elem_of_singleton in Hin. injection Hin as Hin.
      now apply zone_identifier_inj in Hin.
    + now intros ->.
Qed.

End ZoneFacts.

(** ** Closed instances of the further properties *)

(** Three refreshes within five minutes, with two writes in between. *)
Lemma refreshes_in_one_window_instance :
  (timedelta_minutes 5 - 0 <= MIN_TIME_BETWEEN_UPDATES)%Z /\
  (update_calls
     (device
        (calls sample_calls
           (MelCloudDevice_init
              {| inner := scripted None [] []; update_calls := 0;
                 set_calls := 0 |})))
   <= 0 + 1)%nat.
Proof.
  split; [vm_compute; discriminate|].
  apply (refreshes_in_one_window_update_at_most_once 0 (timedelta_minutes 5)
           sample_calls
           (MelCloudDevice_init
              {| inner := scripted None [] []; update_calls := 0;
                 set_calls := 0 |})).
  - vm_compute. discriminate.
  - unfold sample_calls, refreshes_within. repeat constructor;
      vm_compute; discriminate.
Defined.

(** A wrapper found unreachable at instant 0 stays unavailable through the
    refreshes and entity writes of the next five minutes. *)
Lemma availability_is_frozen_instance :
  _throttle counted_unreachable_once = Some 0%Z /\
  available (calls sample_entity_calls counted_unreachable_once) = false /\
  update_calls (device (calls sample_entity_calls counted_unreachable_once))
  = 1%nat.
Proof.
  split; [reflexivity|].
  apply (availability_is_frozen_inside_the_window 0 sample_entity_calls
           counted_unreachable_once).
  - reflexivity.
  - unfold sample_entity_calls, refreshes_within. repeat constructor;
      vm_compute; discriminate.
  - unfold sample_entity_calls. repeat constructor.
Defined.

(** Set-up and unload of one entry on an empty [hass.data]. *)
Lemma unload_undoes_setup_instance :
  (elapsed full_retrieval <= timedelta_seconds 10)%Z /\
  async_unload_entry "melcloudwitherv" "entry" (Returns false)
    (snd (async_setup_entry "melcloudwitherv" "entry" full_retrieval ∅))
  = (Returns false, ∅).
Proof.
  split; [vm_compute; discriminate|].
  apply (unload_undoes_setup "melcloudwitherv" "entry" full_retrieval
           full_inventory false ∅).
  - vm_compute. discriminate.
  - reflexivity.
  - rewrite lookup_empty. discriminate.
  - intros entries. rewrite lookup_empty. discriminate.
Defined.

(** Unload of one of two stored entries. *)
Lemma unload_removes_only_its_entry_instance :
  fst (async_unload_entry (D := Scripted) "melcloudwitherv" "first"
         (Returns false)
         {[ "melcloudwitherv" := {[ "first" := ∅; "second" := ∅ ]} ]})
  = Returns false /\
  entry_fleet "melcloudwitherv" "second"
    (snd (async_unload_entry (D := Scripted) "melcloudwitherv" "first"
            (Returns false)
            {[ "melcloudwitherv" := {[ "first" := ∅; "second" := ∅ ]} ]}))
  = Returns ∅.
Proof.
  destruct (unload_removes_only_its_entry (D := Scripted) "melcloudwitherv"
              "first" false
              {[ "melcloudwitherv" := {[ "first" := ∅; "second" := ∅ ]} ]}
              {[ "first" := ∅; "second" := ∅ ]} ∅)
    as (Hret & _ & Hothers & _); [reflexivity|reflexivity|].
  split; [exact Hret|].
  rewrite (Hothers "second") by discriminate. reflexivity.
Defined.

(** No empty dictionary after the unload of the only entry. *)
Lemma no_empty_domain_dictionary_instance :
  snd (async_unload_entry (D := Scripted) "melcloudwitherv" "first"
         (Returns true) {[ "melcloudwitherv" := {[ "first" := ∅ ]} ]})
    !! "melcloudwitherv" <> Some ∅.
Proof.
  apply (no_empty_domain_dictionary (D := Scripted) "melcloudwitherv" "first"
           full_retrieval (Returns true)
           {[ "melcloudwitherv" := {[ "first" := ∅ ]} ]}).
  vm_compute. discriminate.
Defined.

(** The switches and the selects of the inventory with three classes. *)
Lemma switch_entities_instance :
  full_inventory !! "erv" = Some [scripted (Some example_units) [] []] /\
  switch_async_setup_entry "melcloudwitherv" "mac" "ata" "atw" "erv" "entry"
    (snd (async_setup_entry "melcloudwitherv" "entry" full_retrieval ∅))
  = Returns
      (List.map
         (fun d => PowerSwitch
                     (Entity_init "melcloudwitherv" "mac"
                        (MelCloudDevice_init d) d))
         [scripted (Some example_units) [] []; scripted None [] []]).
Proof.
  split; [reflexivity|].
  apply (switch_entities_after_bootstrap "melcloudwitherv" "mac" "ata" "atw"
           "erv" "entry" full_retrieval full_inventory ∅
           [scripted (Some example_units) [] []] [scripted None [] []] []);
    first [reflexivity | vm_compute; discriminate].
Defined.

Lemma select_entities_instance :
  full_inventory !! "erv" = Some [scripted (Some example_units) [] []] /\
  select_async_setup_entry "melcloudwitherv" "mac" "erv" "entry"
    (snd (async_setup_entry "melcloudwitherv" "entry" full_retrieval ∅))
  = Returns
      [ ErvFanSpeedSelect
          (Entity_init "melcloudwitherv" "mac"
             (MelCloudDevice_init (scripted (Some example_units) [] []))
             (scripted (Some example_units) [] []));
        ErvVentilationModeSelect
          (Entity_init "melcloudwitherv" "mac"
             (MelCloudDevice_init (scripted (Some example_units) [] []))
             (scripted (Some example_units) [] [])) ].
Proof.
  split; [reflexivity|].
  apply (select_entities_after_bootstrap "melcloudwitherv" "mac" "erv" "entry"
           full_retrieval full_inventory ∅
           [scripted (Some example_units) [] []]);
    first [reflexivity | vm_compute; discriminate].
Defined.

(** The inventory without air-to-water units: the switch set-up stops, the
    select set-up does not. *)
Lemma platform_setups_instance :
  switch_async_setup_entry "melcloudwitherv" "mac" "ata" "atw" "erv" "entry"
    (snd (async_setup_entry "melcloudwitherv" "entry" sample_retrieval ∅))
  = Raises KeyError.
Proof.
  destruct (entry_fleet_after_setup "melcloudwitherv" "entry" sample_retrieval
              sample_inventory ∅) as (fleet & Hfleet & Hwrap);
    [vm_compute; discriminate | reflexivity |].
  apply (proj1 (platform_setups_need_their_classes "melcloudwitherv" "mac"
                  "ata" "atw" "erv" "entry" _ fleet Hfleet)).
  right. right. rewrite Hwrap. reflexivity.
Defined.

(** The entities of the switch set-up above are bound to their wrappers. *)
Lemma entities_share_the_accessor_instance :
  Forall (bound_to_its_wrapper "melcloudwitherv" "mac")
    (List.map
       (fun d => PowerSwitch
                   (Entity_init "melcloudwitherv" "mac"
                      (MelCloudDevice_init d) d))
       [scripted (Some example_units) [] []; scripted None [] []]).
Proof.
  apply (entities_share_the_accessor_of_their_wrapper "melcloudwitherv" "mac"
           "ata" "atw" "erv" "entry"
           (snd (async_setup_entry "melcloudwitherv" "entry" full_retrieval ∅))).
  left. reflexivity.
Defined.

(** Two power switches of one device have one unique id and one class. *)
Lemma unique_ids_instance :
  same_class
    (PowerSwitch
       (Entity_init "melcloudwitherv" "mac" (sample_wrapper [] [])
          (scripted None [] [])))
    (PowerSwitch
       (Entity_init "melcloudwitherv" "mac" (sample_unavailable [] [])
          (scripted None [] []))).
Proof.
  apply unique_ids_tell_the_classes_apart. reflexivity.
Defined.

(** ** The module purge *)

Section PurgeFacts.
Context {M : Type}.
Implicit Types (sys_modules : gmap string M).

Lemma purge_fold_lookup (start seen : gmap string M) (mod_name : string) :
  map_fold
    (fun mod_name _ (live : gmap string M) =>
       if is_pymelcloud_module mod_name then delete mod_name live else live)
    start seen !! mod_name
  = match seen !! mod_name with
    | Some _ =>
        if is_pymelcloud_module mod_name then None else start !! mod_name
    | None => start !! mod_name
    end.
Proof.
  apply (map_fold_weak_ind
           (fun (live seen : gmap string M) =>
              live !! mod_name
              = match seen !! mod_name with
                | Some _ =>
                    if is_pymelcloud_module mod_name then None
                    else start !! mod_name
                | None => start !! mod_name
                end)).
  - now rewrite lookup_empty.
  - intros i x m live Hfresh IH. destruct (decide (i = mod_name)) as [->|Hne].
    + rewrite lookup_insert_eq. rewrite Hfresh in IH.
      destruct (is_pymelcloud_module mod_name);
        [apply lookup_delete_eq|exact IH].
    + rewrite lookup_insert_ne by exact Hne.
      destruct (is_pymelcloud_module i); [|exact IH].
      now rewrite lookup_delete_ne.
Qed.

(** The purge removes [pymelcloud] and every module whose name starts with
    [pymelcloud.], and keeps every other module as it was, a module such as
    [pymelcloud_tools] included; a second purge changes nothing more. *)
Theorem purge_removes_exactly_pymelcloud sys_modules :
  (forall mod_name,
     purge_pymelcloud_modules sys_modules !! mod_name
     = if is_pymelcloud_module mod_name then None
       else sys_modules !! mod_name) /\
  is_pymelcloud_module "pymelcloud" = true /\
  is_pymelcloud_module "pymelcloud.ata_device" = true /\
  is_pymelcloud_module "pymelcloud_tools" = false /\
  purge_pymelcloud_modules (purge_pymelcloud_modules sys_modules)
  = purge_pymelcloud_modules sys_modules.
Proof.
  assert (Hlookup : forall sys_modules mod_name,
            purge_pymelcloud_modules sys_modules !! mod_name
            = if is_pymelcloud_module mod_name then None
              else sys_modules !! mod_name).
  { intros m mod_name. unfold purge_pymelcloud_modules.
    rewrite purge_fold_lookup.
    destruct (m !! mod_name); [reflexivity|].
    now destruct (is_pymelcloud_module mod_name). }
  split; [apply Hlookup|]. do 3 (split; [reflexivity|]).
  apply map_eq. intros mod_name. rewrite !Hlookup.
  now destruct (is_pymelcloud_module mod_name).
Qed.

End PurgeFacts.
